(** * Nexus: authorization and relationship model of the controllers

    A shallow embedding of the HTTP controllers of the nexus application
    ([src/controllers/channel.controller.js], [src/controllers/user.controller.js]
    and the server-creation handler) together with the properties that its
    specification states about them.

    Documents live in a store of finite maps keyed by their id; a controller
    is a function from a request and a store to a response and a store.
    [try]/[catch] is an error monad whose state survives a throw: nothing in
    the controllers rolls a write back. *)

From stdpp Require Import base gmap sets list strings.
From Stdlib Require Import ZArith Lia.

Set Default Proof Using "Type".

(** ** Errors and responses *)

(** A thrown value: an instance of [BaseError] (class name, [statusCode],
    [message]) or anything else (a [TypeError], a driver failure). *)
Inductive Error :=
| BaseError (name : string) (statusCode : Z) (message : string)
| ForeignError (description : string).

(** Modelled from the spec: the [NotFoundError] class of [utils/errors.js],
    which is not part of the sources; section 7 gives its status code, 404.
    The message text is a placeholder. *)
Definition NotFoundError (what : string) : Error :=
  BaseError "NotFoundError" 404 (what +:+ " not found.").
(** A [TypeError] of the JavaScript runtime: not a [BaseError]. *)
Definition TypeError (what : string) : Error := ForeignError ("TypeError: " +:+ what).

(** One rendered message of a channel page. *)
Record MessageView := mkMessageView {
  mv_id : string; mv_userId : string; mv_username : string; mv_message : string }.

Inductive Payload :=
| RenderError (statusCode : Z) (message : string)
| RenderChannelMain (serverId name description : string)
    (messages : list MessageView) (canSend : bool)
| JsonError (message : string)
| JsonEmpty
| JsonFriend (id username : string)
| Redirect (url : string).

Record Response := mkResponse { status : Z; payload : Payload }.

(** ** Documents and the store *)

Record ServerUser := mkServerUser { su_id : string; su_permissionLevel : Z }.

Record Server := mkServer {
  server_name : string;
  creatorId : string;
  users : list ServerUser;
  channels : list string }.

Record Channel := mkChannel {
  serverId : string;
  channel_name : string;
  description : string;
  permissionLevel : Z;
  messages : list string }.

Record Message := mkMessage { userId : string; message : string }.

Record User := mkUser {
  username : string;
  friends : gset string;
  friendRequests : gset string }.

(** A private conversation between two users; the key is the unordered pair. *)
Record PrivateMessage := mkPrivateMessage { pm_a : string; pm_b : string }.

Record DB := mkDB {
  db_users : gmap string User;
  db_servers : gmap string Server;
  db_channels : gmap string Channel;
  db_messages : gmap string Message;
  db_privateMessages : list PrivateMessage }.

(** The session of a request: [req.session.user], when there is one. *)
Record SessionUser := mkSessionUser { session_id : string }.

(** JavaScript truthiness of a string. *)
Definition truthy (s : string) : bool := negb (String.eqb s "").

(** ** The error monad of a [try] block over a read-only store *)

Definition bindE {A B} (x : Error + A) (f : A → Error + B) : Error + B :=
  match x with inl e => inl e | inr a => f a end.

Notation "x ← y ;;; z" := (bindE y (λ x, z))
  (at level 20, y at level 100, z at level 200, only parsing).

Fixpoint mapE {A B} (f : A → Error + B) (l : list A) : Error + list B :=
  match l with
  | [] => inr []
  | a :: l' => b ← f a ;;; bs ← mapE f l' ;;; inr (b :: bs)
  end.

(** ** Entity reads

    The [getXById] methods of the service layer, which is not part of the
    sources; section 6 of the spec gives their contract,
    [getById(id) -> Entity | NotFound]. *)
Module Reads.

(** Modelled from the spec: [UserService.getUserById], by the contract of
    section 6. *)
Definition getUserById (db : DB) (id : string) : Error + User :=
  match db_users db !! id with Some u => inr u | None => inl (NotFoundError "User") end.

(** Modelled from the spec: [ServerService.getServerById], by the contract of
    section 6. *)
Definition getServerById (db : DB) (id : string) : Error + Server :=
  match db_servers db !! id with Some s => inr s | None => inl (NotFoundError "Server") end.

(** Modelled from the spec: [ChannelService.getChannelById], by the contract
    of section 6. *)
Definition getChannelById (db : DB) (id : string) : Error + Channel :=
  match db_channels db !! id with Some c => inr c | None => inl (NotFoundError "Channel") end.

(** Modelled from the spec: [MessageService.getMessageById], by the contract
    of section 6. *)
Definition getMessageById (db : DB) (id : string) : Error + Message :=
  match db_messages db !! id with Some m => inr m | None => inl (NotFoundError "Message") end.

End Reads.

(** ** [ChannelController.renderChannelMainPage]

    The [stylesheets] and [scripts] of the rendered page are constants and
    are left out of the payload. *)
Module ChannelController.

Definition forbidden : Response :=
  mkResponse 403 (RenderError 403 "Insufficient permissions.").

(** The [catch] block of the page controllers: both branches of the inner
    [instanceof InternalServerError] test render the same page. *)
Definition renderCatch (e : Error) : Response :=
  match e with
  | BaseError _ code msg => mkResponse code (RenderError code msg)
  | ForeignError _ => mkResponse 500 (RenderError 500 "Code went boom.")
  end.

(** [array.includes(x)] and [array.find(pred)] on the member list. *)
Definition includes (x : string) (l : list string) : bool := existsb (String.eqb x) l.
Definition findUser (userId : string) (l : list ServerUser) : option ServerUser :=
  List.find (λ userObj, String.eqb (su_id userObj) userId) l.

(** Lines 39-72: the test on the session and the member list, the lookup of
    the member's level and its comparison with the channel's. *)
Definition permissionGate (session : option SessionUser)
    (server : Server) (channel : Channel) (msgs : list MessageView) : Error + Response :=
  let serverUsers := map su_id (users server) in
  match session with
  | Some user =>
      if truthy (session_id user) && includes (session_id user) serverUsers then
        let userId := session_id user in
        match findUser userId (users server) with
        | None => inl (TypeError "undefined has no property permissionLevel")
        | Some userObj =>
            let userPerms := su_permissionLevel userObj in
            if (permissionLevel channel <=? userPerms)%Z then
              inr (mkResponse 200
                     (RenderChannelMain (serverId channel) (channel_name channel)
                        (description channel) msgs true))
            else inr forbidden
        end
      else inr forbidden
  | None => inr forbidden
  end.

Section Controller.
(** [ChannelValidator.validateMongooseId(value, field)]: the validator layer
    is not part of the sources; it returns the id or throws. *)
Variable validateMongooseId : string → string → Error + string.

(** Lines 15-37: everything the controller loads before it looks at the
    session. [Promise.all] over the message ids is read in list order. *)
Definition loadMessage (db : DB) (messageId : string) : Error + MessageView :=
  msg ← Reads.getMessageById db messageId ;;;
  user ← Reads.getUserById db (userId msg) ;;;
  inr (mkMessageView messageId (userId msg) (username user) (message msg)).

Definition loadChannelPage (db : DB) (channelIdParam : string)
    : Error + (Channel * Server * list MessageView) :=
  channelId ← validateMongooseId channelIdParam "channelId" ;;;
  channel ← Reads.getChannelById db channelId ;;;
  server ← Reads.getServerById db (serverId channel) ;;;
  msgs ← mapE (loadMessage db) (messages channel) ;;;
  inr (channel, server, msgs).

Definition renderChannelMainPage (session : option SessionUser)
    (channelIdParam : string) (db : DB) : Response :=
  match
    loaded ← loadChannelPage db channelIdParam ;;;
    let '(channel, server, msgs) := loaded in
    permissionGate session server channel msgs
  with
  | inr response => response
  | inl error => renderCatch error
  end.

End Controller.
End ChannelController.

(** ** The monad of a [try] block whose services write to the store *)

Definition M (A : Type) : Type := DB → (Error + A) * DB.

Definition ret {A} (a : A) : M A := λ db, (inr a, db).
Definition throw {A} (e : Error) : M A := λ db, (inl e, db).
Definition bindM {A B} (x : M A) (f : A → M B) : M B :=
  λ db, match x db with
        | (inl e, db') => (inl e, db')
        | (inr a, db') => f a db'
        end.
Definition liftE {A} (x : Error + A) : M A := λ db, (x, db).
Definition readM {A} (f : DB → Error + A) : M A := λ db, (f db, db).
Definition modifyM (f : DB → DB) : M unit := λ db, (inr tt, f db).

Notation "x ⇐ y ⨟ z" := (bindM y (λ x, z))
  (at level 20, y at level 99, z at level 200, only parsing).
Notation "y ⨟⨟ z" := (bindM y (λ _, z))
  (at level 100, z at level 200, right associativity, only parsing).

(** [try { body } catch (error) { handler }]: the store keeps every write made
    before the throw. *)
Definition tryCatch (body : M Response) (handler : Error → Response)
    : DB → Response * DB :=
  λ db, match body db with
        | (inr response, db') => (response, db')
        | (inl error, db') => (handler error, db')
        end.

(** [res.redirect(url)]: Express sets the status of a redirect itself, to 302,
    whatever status [res.status] was given before. *)
Definition redirected (url : string) : Response := mkResponse 302 (Redirect url).

(** The [catch] block of the JSON controllers. *)
Definition jsonCatch (e : Error) : Response :=
  match e with
  | BaseError _ code msg => mkResponse code (JsonError msg)
  | ForeignError _ => mkResponse 500 (JsonError "Code went boom.")
  end.

Definition set_users (f : gmap string User → gmap string User) (db : DB) : DB :=
  mkDB (f (db_users db)) (db_servers db) (db_channels db) (db_messages db)
       (db_privateMessages db).
Definition set_servers (f : gmap string Server → gmap string Server) (db : DB) : DB :=
  mkDB (db_users db) (f (db_servers db)) (db_channels db) (db_messages db)
       (db_privateMessages db).
Definition set_privateMessages (f : list PrivateMessage → list PrivateMessage)
    (db : DB) : DB :=
  mkDB (db_users db) (db_servers db) (db_channels db) (db_messages db)
       (f (db_privateMessages db)).

(** A user document as a controller holds it: its id and its fields. A
    handler reads its documents once and passes them on to every service it
    calls; a service writes to the store under the id of the document. Within
    one request nobody else writes, so the record in the store is the
    document as the earlier calls of the request left it. *)
Definition UserDoc : Type := string * User.

(** ** [UserService]

    [services/user.service.js] is not part of the sources. Section 4.2 of the
    spec gives what each friend operation does to the two sets of a user;
    section 3 calls [friends] and [friendRequests] sets. *)
Module UserService.

Definition with_friends (f : gset string → gset string) (u : User) : User :=
  mkUser (username u) (f (friends u)) (friendRequests u).
Definition with_friendRequests (f : gset string → gset string) (u : User) : User :=
  mkUser (username u) (friends u) (f (friendRequests u)).

(** Modelled from the spec: [UserService.getUserById], as a step of a
    handler. *)
Definition getUserById (id : string) : M UserDoc :=
  readM (λ db, u ← Reads.getUserById db id ;;; inr (id, u)).

(** Modelled from the spec: [UserService.getUserByUsername]; usernames are
    unique (section 3), so any record of that name is the record. *)
Definition getUserByUsername (name : string) : M UserDoc :=
  readM (λ db,
    match List.find (λ doc : UserDoc, String.eqb (username doc.2) name)
            (map_to_list (db_users db)) with
    | Some doc => inr doc
    | None => inl (NotFoundError "User")
    end).

(** Modelled from the spec: [UserService.sendFriendRequest], "adds
    requester's id to target's [friendRequests]". *)
Definition sendFriendRequest (target requester : UserDoc) : M unit :=
  modifyM (set_users (alter (with_friendRequests (λ s, s ∪ {[requester.1]})) target.1)).

(** Modelled from the spec: [UserService.acceptFriendRequest], the transition
    from [PENDING] (requester → target): "removes the pending marker, adds
    each id into the other's [friends] set". *)
Definition acceptFriendRequest (target requester : UserDoc) : M unit :=
  modifyM (set_users (λ us,
    alter (with_friends (λ s, s ∪ {[target.1]})) requester.1
      (alter (λ u, with_friends (λ s, s ∪ {[requester.1]})
                     (with_friendRequests (λ s, s ∖ {[requester.1]}) u))
         target.1 us))).

(** Modelled from the spec: [UserService.rejectFriendRequest], "removes the
    pending marker only". *)
Definition rejectFriendRequest (target requester : UserDoc) : M unit :=
  modifyM (set_users (alter (with_friendRequests (λ s, s ∖ {[requester.1]})) target.1)).

(** Modelled from the spec: [UserService.removeFriend], "removes each from
    the other's [friends] set (symmetric removal)". *)
Definition removeFriend (userA userB : UserDoc) : M unit :=
  modifyM (set_users (λ us,
    alter (with_friends (λ s, s ∖ {[userA.1]})) userB.1
      (alter (with_friends (λ s, s ∖ {[userB.1]})) userA.1 us))).

End UserService.

(** ** [PrivateMessageService]

    [services/privateMessage.service.js] is not part of the sources. A
    conversation is keyed by the unordered pair of its users (section 3 of
    the spec). *)
Module PrivateMessageService.

(** What creating a conversation that exists already does: section 4.2 leaves
    it open between "a no-op or a reported error". *)
Inductive DuplicatePolicy :=
| DuplicateIsNoOp
| DuplicateIsError (e : Error).

Definition between (a b : string) (pm : PrivateMessage) : bool :=
  (String.eqb (pm_a pm) a && String.eqb (pm_b pm) b)
  || (String.eqb (pm_a pm) b && String.eqb (pm_b pm) a).

(** The number of stored conversations of the pair. *)
Definition conversations (a b : string) (db : DB) : nat :=
  length (List.filter (between a b) (db_privateMessages db)).

(** Modelled from the spec: [PrivateMessageService.createPrivateMessage],
    "creates exactly one PrivateMessage conversation keyed by the unordered
    pair — creation must be exactly-once". *)
Definition createPrivateMessage (policy : DuplicatePolicy)
    (target requester : UserDoc) : M unit :=
  λ db,
    if existsb (between target.1 requester.1) (db_privateMessages db) then
      match policy with
      | DuplicateIsNoOp => (inr tt, db)
      | DuplicateIsError e => (inl e, db)
      end
    else
      (inr tt, set_privateMessages (λ l, l ++ [mkPrivateMessage target.1 requester.1]) db).

(** Removes the first stored conversation of the pair. *)
Fixpoint remove_first (p : PrivateMessage → bool) (l : list PrivateMessage)
    : list PrivateMessage :=
  match l with
  | [] => []
  | pm :: l' => if p pm then l' else pm :: remove_first p l'
  end.

(** Modelled from the spec: [PrivateMessageService.deletePrivateMessage],
    "deletes the associated PrivateMessage conversation". *)
Definition deletePrivateMessage (userA userB : UserDoc) : M unit :=
  modifyM (set_privateMessages (remove_first (between userA.1 userB.1))).

End PrivateMessageService.

(** ** [UserController]: the friend operations *)
Module UserController.

(** The fields of [req] that the friend controllers read. *)
Record Request := mkRequest {
  session : option SessionUser;
  body_username : string;
  body_requesterId : string;
  body_friendId : string }.

(** [req.session.user.id]; without a session user the property access throws
    a [TypeError] inside the [try] block. *)
Definition sessionUserId (req : Request) : M string :=
  match session req with
  | Some user => ret (session_id user)
  | None => throw (TypeError "undefined has no property id")
  end.

Section Controllers.
(** The validator layer is not part of the sources: each validator returns
    the normalised field or throws. *)
Variable validateCreateFriendRequestInfo : string → Error + string.
Variable validateMongooseId : string → string → Error + string.
Variable policy : PrivateMessageService.DuplicatePolicy.

(** Lines 288-316. *)
Definition sendFriendRequest (req : Request) : DB → Response * DB :=
  tryCatch
    (username ⇐ liftE (validateCreateFriendRequestInfo (body_username req)) ⨟
     userId ⇐ sessionUserId req ⨟
     target ⇐ UserService.getUserByUsername username ⨟
     requester ⇐ UserService.getUserById userId ⨟
     (if bool_decide (target.1 ∈ friendRequests requester.2) then
        UserService.sendFriendRequest target requester ⨟⨟
        UserService.acceptFriendRequest target requester ⨟⨟
        PrivateMessageService.createPrivateMessage policy target requester
      else
        UserService.sendFriendRequest target requester) ⨟⨟
     ret (mkResponse 204 JsonEmpty))
    jsonCatch.

(** Lines 322-345. *)
Definition rejectFriendRequest (req : Request) : DB → Response * DB :=
  tryCatch
    (requesterId ⇐ liftE (validateMongooseId (body_requesterId req) "requesterId") ⨟
     userId ⇐ sessionUserId req ⨟
     target ⇐ UserService.getUserById userId ⨟
     requester ⇐ UserService.getUserById requesterId ⨟
     UserService.rejectFriendRequest target requester ⨟⨟
     ret (mkResponse 204 JsonEmpty))
    jsonCatch.

(** Lines 351-380. *)
Definition addFriend (req : Request) : DB → Response * DB :=
  tryCatch
    (requesterId ⇐ liftE (validateMongooseId (body_requesterId req) "requesterId") ⨟
     userId ⇐ sessionUserId req ⨟
     target ⇐ UserService.getUserById userId ⨟
     requester ⇐ UserService.getUserById requesterId ⨟
     UserService.acceptFriendRequest target requester ⨟⨟
     PrivateMessageService.createPrivateMessage policy target requester ⨟⨟
     ret (mkResponse 200 (JsonFriend requester.1 (username requester.2))))
    jsonCatch.

(** Lines 386-410. *)
Definition removeFriend (req : Request) : DB → Response * DB :=
  tryCatch
    (friendId ⇐ liftE (validateMongooseId (body_friendId req) "friendId") ⨟
     userId ⇐ sessionUserId req ⨟
     userA ⇐ UserService.getUserById friendId ⨟
     userB ⇐ UserService.getUserById userId ⨟
     PrivateMessageService.deletePrivateMessage userA userB ⨟⨟
     UserService.removeFriend userA userB ⨟⨟
     ret (mkResponse 204 JsonEmpty))
    jsonCatch.

End Controllers.
End UserController.

(** ** The services of account deletion

    The service layer is not part of the sources. Section 4.3 of the spec
    says what each step of the cascade removes; each definition is the write
    of one service call on the store. *)
Module Cascade.

Definition involves (id : string) (pm : PrivateMessage) : bool :=
  String.eqb (pm_a pm) id || String.eqb (pm_b pm) id.

Definition associated (removedUser : string) (removed : option User) (doc : UserDoc) : bool :=
  bool_decide (removedUser ∈ friends doc.2)
  || bool_decide (removedUser ∈ friendRequests doc.2)
  || match removed with
     | Some u => bool_decide (doc.1 ∈ friends u) || bool_decide (doc.1 ∈ friendRequests u)
     | None => false
     end.

(** Modelled from the spec: [UserService.getAssociatedUsers], "every user
    associated by friendship or pending request". *)
Definition getAssociatedUsers (removedUser : string) (db : DB) : list UserDoc :=
  List.filter (associated removedUser (db_users db !! removedUser))
    (map_to_list (db_users db)).

(** Modelled from the spec: [UserService.removeUserAssociations], "remove
    that association symmetrically (friend removal deletes the matching private conversation;
    pending-request removal just clears the marker)". *)
Definition removeUserAssociations (associatedUser removedUser : string) (db : DB) : DB :=
  let unlink (other : string) (u : User) : User :=
    mkUser (username u) (friends u ∖ {[other]}) (friendRequests u ∖ {[other]}) in
  let wereFriends :=
    match db_users db !! associatedUser with
    | Some u => bool_decide (removedUser ∈ friends u)
    | None => false
    end in
  set_privateMessages
    (λ l, if wereFriends
          then PrivateMessageService.remove_first
                 (PrivateMessageService.between associatedUser removedUser) l
          else l)
    (set_users (λ us, alter (unlink associatedUser) removedUser
                        (alter (unlink removedUser) associatedUser us)) db).

Definition isMember (id : string) (server : Server) : bool :=
  ChannelController.includes id (map su_id (users server)).

(** Modelled from the spec: [ServerService.getJoinedServers], "every server
    the user belongs to". *)
Definition getJoinedServers (removedUser : string) (db : DB) : list (string * Server) :=
  List.filter (λ doc, isMember removedUser doc.2) (map_to_list (db_servers db)).

(** Modelled from the spec: [ServerService.deleteServer], "delete the entire
    server". *)
Definition deleteServer (server : string) (db : DB) : DB :=
  set_servers (delete server) db.

Definition without_member (id : string) (server : Server) : Server :=
  mkServer (server_name server) (creatorId server)
    (List.filter (λ userObj, negb (String.eqb (su_id userObj) id)) (users server))
    (channels server).

(** Modelled from the spec: [ServerService.removeUser], "remove only that
    user's membership entry from the server's [users] collection". *)
Definition removeUser (server removedUser : string) (db : DB) : DB :=
  set_servers (alter (without_member removedUser) server) db.

(** Modelled from the spec: [ChannelService.deleteServerChannels], "all of
    its channels (and, transitively, their messages)"; a channel belongs to
    the server that its [serverId] names. *)
Definition deleteServerChannels (server : string) (db : DB) : DB :=
  let doomed : gmap string Channel :=
    filter (λ kv : string * Channel, serverId kv.2 = server) (db_channels db) in
  let messageIds : list string :=
    concat (map (λ kv : string * Channel, messages kv.2) (map_to_list doomed)) in
  mkDB (db_users db) (db_servers db)
    (filter (λ kv : string * Channel, serverId kv.2 ≠ server) (db_channels db))
    (filter (λ kv : string * Message, kv.1 ∉ messageIds) (db_messages db))
    (db_privateMessages db).

(** Modelled from the spec: [PrivateMessageService.deleteUserPrivateMessages],
    "all private conversations involving the user". *)
Definition deleteUserPrivateMessages (removedUser : string) (db : DB) : DB :=
  set_privateMessages (List.filter (λ pm, negb (involves removedUser pm))) db.

(** Modelled from the spec: [UserService.deleteUser], "delete the user record
    itself". *)
Definition deleteUser (id : string) (db : DB) : DB := set_users (delete id) db.

End Cascade.

(** ** [UserController.deleteUser]

    The handler awaits some service calls and starts others inside
    [forEach(async ...)], which does not wait for the promises of its
    callbacks. A configuration holds the store, the point the handler has
    reached and the callbacks in flight; a step lets the handler or one
    callback get the answer of the service call it is waiting for, and the
    write of a call happens at that step. Nothing orders the answers of
    calls that are in flight together, so every interleaving of the steps is
    a run. *)
Module DeleteUser.

(** A service call that writes. *)
Inductive Op :=
| RemoveUserAssociations (associatedUser removedUser : string)
| DeleteServer (server removedUser : string)
| DeleteServerChannels (server : string)
| RemoveUser (server removedUser : string)
| DeleteUserPrivateMessages (removedUser : string)
| DeleteUserRecord (id : string).

Definition effect (op : Op) : DB → DB :=
  match op with
  | RemoveUserAssociations a r => Cascade.removeUserAssociations a r
  | DeleteServer s _ => Cascade.deleteServer s
  | DeleteServerChannels s => Cascade.deleteServerChannels s
  | RemoveUser s r => Cascade.removeUser s r
  | DeleteUserPrivateMessages r => Cascade.deleteUserPrivateMessages r
  | DeleteUserRecord id => Cascade.deleteUser id
  end.

#[global] Instance Op_eq_dec : EqDecision Op.
Proof. solve_decision. Defined.

(** The rest of one [forEach] callback: the calls it still has to await, in
    order. *)
Abbreviation Task := (list Op) (only parsing).

(** Lines 251-253. *)
Definition associationCallback (removedUser : string) (associatedUser : UserDoc) : Task :=
  [RemoveUserAssociations associatedUser.1 removedUser].

(** Lines 258-265: the test on [creatorId] runs when the callback is called,
    before its first [await]. *)
Definition serverCallback (removedUser : string) (joinedServer : string * Server) : Task :=
  if String.eqb removedUser (creatorId joinedServer.2)
  then [DeleteServer joinedServer.1 removedUser; DeleteServerChannels joinedServer.1]
  else [RemoveUser joinedServer.1 removedUser].

(** The [await] the handler is suspended at. *)
Inductive Pc :=
| AtGetUserById
| AtGetAssociatedUsers (removedUser : string)
| AtGetJoinedServers (removedUser : string)
| AtDeleteUserPrivateMessages (removedUser : string)
| AtDeleteUser (removedUser : string)
| Returned.

Inductive Event :=
| Done (op : Op)
| Rejected (op : Op) (e : Error)
| SessionDestroyed
| Responded (r : Response).

Record Config := mkConfig {
  store : DB;
  pc : Pc;
  pool : list Task;
  sessionAlive : bool;
  response : option Response;
  unhandled : list Error;
  trace : list Event }.

Definition start (db : DB) : Config := mkConfig db AtGetUserById [] true None [] [].

(** What the awaited call does: it resolves, or it rejects with an error. *)
Inductive Outcome := Resolves | Rejects (e : Error).

(** Who moves next: the handler, or the callback at a position of the pool. *)
Inductive Choice := Handler (o : Outcome) | Callback (i : nat) (o : Outcome).

(** The [catch] block, lines 273-281. *)
Definition caught (e : Error) (c : Config) : Config :=
  mkConfig (store c) Returned (pool c) (sessionAlive c) (Some (jsonCatch e))
    (unhandled c) (trace c ++ [Responded (jsonCatch e)]).

Definition goto (next : Pc) (spawned : list Task) (c : Config) : Config :=
  mkConfig (store c) next (pool c ++ spawned) (sessionAlive c) (response c)
    (unhandled c) (trace c).

Definition awaited (op : Op) (next : Pc) (c : Config) : Config :=
  mkConfig (effect op (store c)) next (pool c) (sessionAlive c) (response c)
    (unhandled c) (trace c ++ [Done op]).

(** Lines 270-272. *)
Definition finish (c : Config) : Config :=
  let r := mkResponse 204 JsonEmpty in
  mkConfig (store c) Returned (pool c) false (Some r) (unhandled c)
    (trace c ++ [SessionDestroyed; Responded r]).

Definition handlerStep (session : option SessionUser) (o : Outcome) (c : Config)
    : option Config :=
  match pc c with
  | Returned => None
  | AtGetUserById =>
      match session with
      | None => Some (caught (TypeError "undefined has no property id") c)
      | Some user =>
          match o with
          | Rejects e => Some (caught e c)
          | Resolves =>
              match Reads.getUserById (store c) (session_id user) with
              | inl e => Some (caught e c)
              | inr _ => Some (goto (AtGetAssociatedUsers (session_id user)) [] c)
              end
          end
      end
  | AtGetAssociatedUsers removedUser =>
      match o with
      | Rejects e => Some (caught e c)
      | Resolves =>
          let associatedUsers := Cascade.getAssociatedUsers removedUser (store c) in
          Some (goto (AtGetJoinedServers removedUser)
                  (map (associationCallback removedUser) associatedUsers) c)
      end
  | AtGetJoinedServers removedUser =>
      match o with
      | Rejects e => Some (caught e c)
      | Resolves =>
          let joinedServers := Cascade.getJoinedServers removedUser (store c) in
          Some (goto (AtDeleteUserPrivateMessages removedUser)
                  (map (serverCallback removedUser) joinedServers) c)
      end
  | AtDeleteUserPrivateMessages removedUser =>
      match o with
      | Rejects e => Some (caught e c)
      | Resolves =>
          Some (awaited (DeleteUserPrivateMessages removedUser) (AtDeleteUser removedUser) c)
      end
  | AtDeleteUser removedUser =>
      match o with
      | Rejects e => Some (caught e c)
      | Resolves => Some (finish (awaited (DeleteUserRecord removedUser) Returned c))
      end
  end.

(** A callback whose call resolves goes on to its next call; one whose call
    rejects is over, and nothing handles its rejection. *)
Definition callbackStep (i : nat) (o : Outcome) (c : Config) : option Config :=
  match pool c !! i with
  | Some (op :: rest) =>
      match o with
      | Resolves =>
          Some (mkConfig (effect op (store c)) (pc c) (<[i := rest]> (pool c))
                  (sessionAlive c) (response c) (unhandled c) (trace c ++ [Done op]))
      | Rejects e =>
          Some (mkConfig (store c) (pc c) (<[i := []]> (pool c))
                  (sessionAlive c) (response c) (unhandled c ++ [e])
                  (trace c ++ [Rejected op e]))
      end
  | _ => None
  end.

Definition step (session : option SessionUser) (ch : Choice) (c : Config) : option Config :=
  match ch with
  | Handler o => handlerStep session o c
  | Callback i o => callbackStep i o c
  end.

Fixpoint run (session : option SessionUser) (schedule : list Choice) (c : Config)
    : option Config :=
  match schedule with
  | [] => Some c
  | ch :: schedule' =>
      match step session ch c with
      | Some c' => run session schedule' c'
      | None => None
      end
  end.

(** Nothing is left to do: the handler has returned and every callback has
    run to its end. *)
Definition quiescent (c : Config) : Prop :=
  pc c = Returned ∧ Forall (λ task, task = []) (pool c).

Definition resolves (ch : Choice) : Prop :=
  match ch with
  | Handler Resolves | Callback _ Resolves => True
  | _ => False
  end.

(** How many awaits the handler has before it if each resolves, and how
    many calls the callbacks of the pool still have to make. *)
Definition awaitsLeft (p : Pc) : nat :=
  match p with
  | AtGetUserById => 5
  | AtGetAssociatedUsers _ => 4
  | AtGetJoinedServers _ => 3
  | AtDeleteUserPrivateMessages _ => 2
  | AtDeleteUser _ => 1
  | Returned => 0
  end.

Definition callsLeft (l : list (list Op)) : nat := sum_list (length <$> l).

(** [before x y l]: an [x] of the trace comes before a [y]. *)
Definition before (x y : Event) (l : list Event) : Prop :=
  ∃ l1 l2 l3, l = l1 ++ x :: l2 ++ y :: l3.

(** The writes the handler makes itself, and the end of the session. *)
Definition handlerEvent (e : Event) : bool :=
  match e with
  | Done (DeleteUserPrivateMessages _) | Done (DeleteUserRecord _) | SessionDestroyed => true
  | _ => false
  end.

(** A call that only a [forEach] callback makes. *)
Definition callbackOp (op : Op) : Prop :=
  match op with
  | DeleteUserPrivateMessages _ | DeleteUserRecord _ => False
  | _ => True
  end.

(** What the handler has done so far, by the point it has reached. *)
Definition handlerProgress (c : Config) : Prop :=
  let done := List.filter handlerEvent (trace c) in
  match pc c with
  | AtDeleteUser r => done = [Done (DeleteUserPrivateMessages r)]
  | Returned =>
      done = []
      ∨ ∃ r, done = [Done (DeleteUserPrivateMessages r)]
             ∨ done = [Done (DeleteUserPrivateMessages r); Done (DeleteUserRecord r);
                       SessionDestroyed]
  | _ => done = []
  end.

End DeleteUser.

(** ** [createServer]

    [Channel.create] and [Server.create] belong to the database driver and
    the validators to [utils/validators.js]: what they return is a parameter
    of the handler. *)
Module ServerController.

Inductive CreateResult := Creates | ResolvesFalsy | Rejects (e : Error).

Record Request := mkRequest { session : option SessionUser; body_name : string }.

Definition error_message (e : Error) : string :=
  match e with BaseError _ _ msg => msg | ForeignError msg => msg end.

Section Handler.
(** [Some e]: the validator throws [e]. *)
Variable validateServerCreationInput : string → option Error.
Variable validateUniqueServer : string → option Error.
(** The value of [new mongoose.Types.ObjectId()] and the [_id] of the new
    channel. *)
Variable newServerId newChannelId : string.
(** The defaults of the channel schema. *)
Variable defaultDescription : string.
Variable defaultPermissionLevel : Z.
Variable channelCreate serverCreate : CreateResult.

(** Lines 230-272. The two [create] calls are awaited outside any [try]: a
    rejection leaves the handler without a response ([None]). *)
Definition createServer (req : Request) (db : DB) : option Response * DB :=
  let name := body_name req in
  match validateServerCreationInput name with
  | Some error => (Some (mkResponse 400 (JsonError (error_message error))), db)
  | None =>
  match validateUniqueServer name with
  | Some error => (Some (mkResponse 400 (JsonError (error_message error))), db)
  | None =>
  let serverId := newServerId in
  match channelCreate with
  | Rejects _ => (None, db)
  | ResolvesFalsy =>
      (Some (mkResponse 500 (JsonError "Unable to create general channel.")), db)
  | Creates =>
      let channel :=
        mkChannel serverId "general" defaultDescription defaultPermissionLevel [] in
      let db1 :=
        mkDB (db_users db) (db_servers db) (<[newChannelId := channel]> (db_channels db))
          (db_messages db) (db_privateMessages db) in
      match session req with
      | None => (None, db1)
      | Some user =>
          match serverCreate with
          | Rejects _ => (None, db1)
          | ResolvesFalsy =>
              (Some (mkResponse 500 (JsonError "Unable to create server.")), db1)
          | Creates =>
              let server :=
                mkServer name (session_id user)
                  [mkServerUser (session_id user) 9] [newChannelId] in
              (Some (redirected ("/server/" +:+ serverId)),
               set_servers (insert serverId server) db1)
          end
      end
  end end end.

End Handler.
End ServerController.

(** ** Vocabulary of the properties *)

(** The caller a session stands for: [req.session.user && req.session.user.id]. *)
Definition session_identity (session : option SessionUser) : option string :=
  match session with
  | Some user => if truthy (session_id user) then Some (session_id user) else None
  | None => None
  end.

(** The channel page was rendered. *)
Definition granted (r : Error + Response) : bool :=
  match r with
  | inr (mkResponse _ (RenderChannelMain _ _ _ _ _)) => true
  | _ => false
  end.

(** A caller the gate turns away: no session identity, no entry in the member
    list, or a first entry below the channel's level. *)
Definition denied (session : option SessionUser) (server : Server) (channel : Channel)
    : Prop :=
  match session_identity session with
  | None => True
  | Some U =>
      match ChannelController.findUser U (users server) with
      | None => True
      | Some userObj => (su_permissionLevel userObj < permissionLevel channel)%Z
      end
  end.

(** The relationship of a pair of users, read off the store. *)
Definition friendsOf (db : DB) (a : string) : gset string :=
  match db_users db !! a with Some u => friends u | None => ∅ end.
Definition requestsOf (db : DB) (a : string) : gset string :=
  match db_users db !! a with Some u => friendRequests u | None => ∅ end.

(** [FRIENDS]: each is in the other's [friends] set. *)
Definition areFriends (db : DB) (a b : string) : Prop :=
  b ∈ friendsOf db a ∧ a ∈ friendsOf db b.
(** [PENDING]: a pending marker exists in either direction. *)
Definition pending (db : DB) (a b : string) : Prop :=
  a ∈ requestsOf db b ∨ b ∈ requestsOf db a.
(** [NONE]: no marker and neither is in the other's [friends] set. *)
Definition strangers (db : DB) (a b : string) : Prop :=
  (a ∉ requestsOf db b) ∧ (b ∉ requestsOf db a)
  ∧ (b ∉ friendsOf db a) ∧ (a ∉ friendsOf db b).

(** The step relation of the friend operations: one request to one of the
    four controllers. *)
Section FriendSteps.
Variable validateCreateFriendRequestInfo : string → Error + string.
Variable validateMongooseId : string → string → Error + string.
Variable policy : PrivateMessageService.DuplicatePolicy.

Inductive friendStep : DB → DB → Prop :=
| step_sendFriendRequest req db :
    friendStep db
      (UserController.sendFriendRequest validateCreateFriendRequestInfo policy req db).2
| step_rejectFriendRequest req db :
    friendStep db (UserController.rejectFriendRequest validateMongooseId req db).2
| step_addFriend req db :
    friendStep db (UserController.addFriend validateMongooseId policy req db).2
| step_removeFriend req db :
    friendStep db (UserController.removeFriend validateMongooseId req db).2.
End FriendSteps.

(** ** Sample stores *)
Module Samples.

(** A member list with two entries for one id. *)
Definition twiceListed : Server :=
  mkServer "s" "owner" [mkServerUser "u" 1; mkServerUser "u" 5] [].
Definition level3 : Channel := mkChannel "s1" "staff" "" 3 [].

Definition plainServer : Server := mkServer "s" "owner" [mkServerUser "owner" 9] ["c1"].
Definition plainChannel : Channel := mkChannel "s1" "general" "" 0 ["m1"].

(** Two stores that differ in the author of one message: in the second the
    author's account is gone. *)
Definition storeWithAuthor (author : string) : DB :=
  mkDB {[ "owner" := mkUser "owner" ∅ ∅ ]}
       {[ "s1" := plainServer ]}
       {[ "c1" := plainChannel ]}
       {[ "m1" := mkMessage author "hello" ]}
       [].

Definition acceptId (value field : string) : Error + string := inr value.
Definition acceptName (value : string) : Error + string := inr value.

(** Two users who have nothing to do with each other yet. *)
Definition twoStrangers : DB :=
  mkDB {[ "a" := mkUser "alice" ∅ ∅; "b" := mkUser "bob" ∅ ∅ ]} ∅ ∅ ∅ [].

(** Bob has asked Alice. *)
Definition bobAsked : DB :=
  mkDB {[ "a" := mkUser "alice" ∅ {[ "b" ]}; "b" := mkUser "bob" ∅ ∅ ]} ∅ ∅ ∅ [].

(** Alice and Bob are friends and have their conversation. *)
Definition twoFriends : DB :=
  mkDB {[ "a" := mkUser "alice" {[ "b" ]} ∅; "b" := mkUser "bob" {[ "a" ]} ∅ ]} ∅ ∅ ∅
       [mkPrivateMessage "a" "b"].

(** A request of Alice or of Bob. *)
Definition fromAlice (name requesterId friendId : string) : UserController.Request :=
  UserController.mkRequest (Some (mkSessionUser "a")) name requesterId friendId.
Definition fromBob (name requesterId friendId : string) : UserController.Request :=
  UserController.mkRequest (Some (mkSessionUser "b")) name requesterId friendId.

(** The store after Bob has asked Alice and Alice has then asked Bob. *)
Definition afterCrossRequest : DB :=
  (UserController.sendFriendRequest acceptName PrivateMessageService.DuplicateIsNoOp
     (fromAlice "bob" "" "")
     (UserController.sendFriendRequest acceptName PrivateMessageService.DuplicateIsNoOp
        (fromBob "alice" "" "") twoStrangers).2).2.

End Samples.

(** ** The invariant of a run of [deleteUser] whose calls all resolve *)
Module CascadeInvariant.
Import DeleteUser.

(** A call some callback of the pool still has to make. *)
Definition pendingOp (op : Op) (c : Config) : Prop :=
  ∃ task, task ∈ pool c ∧ op ∈ task.

(** The channel and the messages it lists are gone. *)
Definition gone (cid : string) (ch : Channel) (db : DB) : Prop :=
  db_channels db !! cid = None ∧ ∀ m, m ∈ messages ch → db_messages db !! m = None.

(** The calls of the pool came from the callbacks of a user [U] over the
    servers of the initial store [db0]. *)
Definition opFrame (db0 : DB) (U : string) (op : Op) : Prop :=
  match op with
  | DeleteServer s _ | DeleteServerChannels s =>
      ∃ srv, db_servers db0 !! s = Some srv ∧ creatorId srv = U
  | RemoveUser s r =>
      r = U ∧ ∃ srv, db_servers db0 !! s = Some srv ∧ creatorId srv ≠ U
  | _ => True
  end.

Definition associationOp (op : Op) : Prop :=
  match op with RemoveUserAssociations _ _ => True | _ => False end.

Definition untouched (db0 : DB) (c : Config) : Prop :=
  db_servers (store c) = db_servers db0
  ∧ db_channels (store c) = db_channels db0
  ∧ db_messages (store c) = db_messages db0.

(** Where each joined server stands once its callback has been started. *)
Definition underway (db0 : DB) (U : string) (c : Config) : Prop :=
  ∀ s srv, db_servers db0 !! s = Some srv → Cascade.isMember U srv = true →
    (creatorId srv = U →
       (db_servers (store c) !! s = None ∨ pendingOp (DeleteServer s U) c)
       ∧ ∀ cid ch, db_channels db0 !! cid = Some ch → serverId ch = s →
           gone cid ch (store c)
           ∨ (db_channels (store c) !! cid = Some ch
              ∧ pendingOp (DeleteServerChannels s) c))
    ∧ (creatorId srv ≠ U →
         db_servers (store c) !! s = Some (Cascade.without_member U srv)
         ∨ (db_servers (store c) !! s = Some srv ∧ pendingOp (RemoveUser s U) c)).

Definition Inv (db0 : DB) (U : string) (c : Config) : Prop :=
  (pc c = AtGetUserById ∧ store c = db0 ∧ pool c = [])
  ∨ ((pc c = AtGetAssociatedUsers U ∨ pc c = AtGetJoinedServers U)
     ∧ untouched db0 c ∧ Forall (Forall associationOp) (pool c))
  ∨ ((pc c = AtDeleteUserPrivateMessages U ∨ pc c = AtDeleteUser U ∨ pc c = Returned)
     ∧ Forall (Forall (opFrame db0 U)) (pool c) ∧ underway db0 U c).

End CascadeInvariant.

(** A user with a friend, a server of their own with two channels, and a
    membership in somebody else's server. *)
Module CascadeSample.

Definition store : DB :=
  mkDB {[ "u" := mkUser "una" {[ "f" ]} ∅;
          "f" := mkUser "fay" {[ "u" ]} ∅;
          "o" := mkUser "omar" ∅ ∅ ]}
       {[ "s1" := mkServer "mine" "u" [mkServerUser "u" 9] ["c1"; "c2"];
          "s2" := mkServer "theirs" "o" [mkServerUser "o" 9; mkServerUser "u" 1] ["c3"] ]}
       {[ "c1" := mkChannel "s1" "general" "" 0 ["m1"];
          "c2" := mkChannel "s1" "staff" "" 5 [];
          "c3" := mkChannel "s2" "general" "" 0 [] ]}
       {[ "m1" := mkMessage "u" "hi" ]}
       [mkPrivateMessage "u" "f"].

Definition una : option SessionUser := Some (mkSessionUser "u").

(** The handler runs to its end before any callback gets its answer. *)
Definition handlerFirst : list DeleteUser.Choice :=
  [DeleteUser.Handler DeleteUser.Resolves; DeleteUser.Handler DeleteUser.Resolves;
   DeleteUser.Handler DeleteUser.Resolves; DeleteUser.Handler DeleteUser.Resolves;
   DeleteUser.Handler DeleteUser.Resolves;
   DeleteUser.Callback 0 DeleteUser.Resolves].

(** The first callback's call rejects; the handler goes on. *)
Definition callbackFails (e : Error) : list DeleteUser.Choice :=
  [DeleteUser.Handler DeleteUser.Resolves; DeleteUser.Handler DeleteUser.Resolves;
   DeleteUser.Callback 0 (DeleteUser.Rejects e);
   DeleteUser.Handler DeleteUser.Resolves; DeleteUser.Handler DeleteUser.Resolves;
   DeleteUser.Handler DeleteUser.Resolves].



(** Every call resolves and every callback runs to its end. *)
Definition allDone : list DeleteUser.Choice :=
  [DeleteUser.Handler DeleteUser.Resolves; DeleteUser.Handler DeleteUser.Resolves;
   DeleteUser.Handler DeleteUser.Resolves;
   DeleteUser.Callback 1 DeleteUser.Resolves; DeleteUser.Callback 2 DeleteUser.Resolves;
   DeleteUser.Handler DeleteUser.Resolves;
   DeleteUser.Callback 0 DeleteUser.Resolves; DeleteUser.Callback 1 DeleteUser.Resolves;
   DeleteUser.Handler DeleteUser.Resolves].

End CascadeSample.

(** A request to create the server "lobby" on an empty store. *)
Module CreateSample.

Definition empty : DB := mkDB ∅ ∅ ∅ ∅ [].
Definition request : ServerController.Request :=
  ServerController.mkRequest (Some (mkSessionUser "u")) "lobby".
Definition accepts (name : string) : option Error := None.

(** The handler with ids "s0" and "c0", a channel write that succeeds and a
    server write whose outcome is left open. *)
Definition createServer (serverCreate : ServerController.CreateResult)
    : option Response * DB :=
  ServerController.createServer accepts accepts "s0" "c0" "" 0
    ServerController.Creates serverCreate request empty.

End CreateSample.

(** * The handlers outside the claims *)

(** ** Replies

    The handlers below answer with pages and JSON bodies that [Payload] does
    not have; a [Reply] is a status with one of those or with a [Payload].
    The status is what the handler passes to [res.status], 200 when it does
    not call it, and 302 for a redirect. [RenderOwnProfile] is the page "user/profile" with
    [owner: true], [RenderPublicProfile] the same page with [owner: false];
    the lists of the former hold an id with a name. *)
Inductive Body :=
| Plain (p : Payload)
| JsonUrl (url : string)
| RenderOwnProfile (name bio theme : string)
    (servers friends friendRequests : list (string * string))
| RenderPublicProfile (name bio : string)
| RenderServer (name description : string)
| RenderNotFound (statusCode : Z) (error : string)
| RenderAuth (view : string) (error : string).

Record Reply := mkReply { reply_status : Z; reply_body : Body }.

Definition plain (r : Response) : Reply := mkReply (status r) (Plain (payload r)).

(** The answer of the [catch] block of a JSON handler to a thrown
    [TypeError]. *)
Definition boom : Response := mkResponse 500 (JsonError "Code went boom.").

(** ** [UserController]: profile page, login, signup, logout *)
Module UserPages.

(** What [loginUser] and [createUser] put into [req.session.user]. *)
Record SessionData := mkSessionData {
  sd_id : string; sd_username : string; sd_bio : string; sd_theme : string }.

Definition sessionUser (sd : SessionData) : SessionUser := mkSessionUser (sd_id sd).

Section Handlers.
(** The fields of a user document that the store record does not carry. *)
Variable bio theme : User → string.
Variable servers : User → list string.
(** The validator layer and the services whose code is not part of the
    sources. *)
Variable validateMongooseId : string → string → Error + string.
Variable validateLoginCredentials : string → string → Error + (string * string).
Variable authenticateCredentials : string → string → M UserDoc.
Variable validateSignupInfo : string → string → string → Error + (string * string * string).
Variable createUserService : string → string → string → M UserDoc.

(** The test of lines 15-19. *)
Definition isOwner (session : option SessionUser) (userIdParam : string) : bool :=
  match session with
  | Some user => truthy (session_id user) && String.eqb (session_id user) userIdParam
  | None => false
  end.

(** Lines 13-105. The store keeps [friends] and [friendRequests] as sets;
    the page lists them in the order in which the set enumerates them.
    [Promise.all] over the ids is read in list order. *)
Definition renderUserProfilePage (session : option SessionUser) (userIdParam : string)
    (db : DB) : Reply :=
  match
    if isOwner session userIdParam then
      userId ← validateMongooseId userIdParam "userId" ;;;
      user ← Reads.getUserById db userId ;;;
      serverList ← mapE (λ serverId,
                      server ← Reads.getServerById db serverId ;;;
                      inr (serverId, server_name server)) (servers user) ;;;
      friendList ← mapE (λ id,
                      friend ← Reads.getUserById db id ;;;
                      inr (id, username friend)) (elements (friends user)) ;;;
      requestList ← mapE (λ id,
                       sender ← Reads.getUserById db id ;;;
                       inr (id, username sender)) (elements (friendRequests user)) ;;;
      inr (mkReply 200 (RenderOwnProfile (username user) (bio user) (theme user)
                          serverList friendList requestList))
    else
      userId ← validateMongooseId userIdParam "userId" ;;;
      user ← Reads.getUserById db userId ;;;
      inr (mkReply 200 (RenderPublicProfile (username user) (bio user)))
  with
  | inr reply => reply
  | inl error => plain (ChannelController.renderCatch error)
  end.

(** What both [loginUser] and [createUser] do with the user they obtained. *)
Definition welcome (code : Z) (user : UserDoc) : Reply * option SessionData :=
  (mkReply code (JsonUrl ("/user/" +:+ user.1)),
   Some (mkSessionData user.1 (username user.2) (bio user.2) (theme user.2))).

(** Lines 111-144. *)
Definition loginUser (name password : string) (session : option SessionData) (db : DB)
    : Reply * option SessionData * DB :=
  match validateLoginCredentials name password with
  | inl error => (plain (jsonCatch error), session, db)
  | inr (name', password') =>
      match authenticateCredentials name' password' db with
      | (inl error, db') => (plain (jsonCatch error), session, db')
      | (inr user, db') => (welcome 200 user, db')
      end
  end.

(** Lines 150-153. *)
Definition logoutUser (session : option SessionData) : Reply * option SessionData :=
  (plain (redirected "/"), None).

(** Lines 179-210. *)
Definition createUser (email name password : string) (session : option SessionData)
    (db : DB) : Reply * option SessionData * DB :=
  match validateSignupInfo email name password with
  | inl error => (plain (jsonCatch error), session, db)
  | inr (email', name', password') =>
      match createUserService email' name' password' db with
      | (inl error, db') => (plain (jsonCatch error), session, db')
      | (inr user, db') => (welcome 201 user, db')
      end
  end.

End Handlers.
End UserPages.

(** ** [ChannelController.deleteChannel] *)
Module ChannelAdmin.

Section Handlers.
Variable validateMongooseId : string → string → Error + string.
(** [ServerService.removeChannel(server, channel, user)] and
    [ChannelService.deleteChannel(id)], whose code is not part of the
    sources. *)
Variable removeChannel : string * Server → string * Channel → UserDoc → M unit.
Variable deleteChannelService : string → M unit.

(** Lines 163-188. *)
Definition deleteChannel (session : option SessionUser) (bodyChannelId : string)
    : DB → Response * DB :=
  tryCatch
    (channelId ⇐ liftE (validateMongooseId bodyChannelId "channelId") ⨟
     userId ⇐ match session with
              | Some user => ret (session_id user)
              | None => throw (TypeError "undefined has no property id")
              end ⨟
     user ⇐ UserService.getUserById userId ⨟
     channel ⇐ readM (λ db, Reads.getChannelById db channelId) ⨟
     server ⇐ readM (λ db, Reads.getServerById db (serverId channel)) ⨟
     removeChannel (serverId channel, server) (channelId, channel) user ⨟⨟
     deleteChannelService channelId ⨟⨟
     ret (mkResponse 204 JsonEmpty))
    jsonCatch.

End Handlers.
End ChannelAdmin.

(** ** [renderServerPage] *)
Module ServerPages.

Section Handler.
(** The [description] field of a server document. *)
Variable server_description : Server → string.
(** [Some e]: [Server.findById] rejects with [e] for this id. *)
Variable findByIdRejects : string → option Error.


End Handler.
End ServerPages.

(** ** [authController.authUser] and [logout] *)
Module AuthController.

(** What [authUser] puts into [req.session.user]. *)
Record AuthSession := mkAuthSession {
  as_id : string; as_username : string; as_darkMode : bool }.

(** [User.findOne({ username })]. *)
Definition findOne (name : string) (db : DB) : option UserDoc :=
  List.find (λ doc : UserDoc, String.eqb (username doc.2) name) (map_to_list (db_users db)).

Section Handlers.
(** [Some e]: the validator throws [e]. *)
Variable validateLoginInput : string → string → option Error.
(** [comparePassword] of [utils/password.js]; [inl]: it rejects. *)
Variable comparePassword : string → string → Error + bool.
(** The fields of a user document that the store record does not carry. *)
Variable hashedPassword : User → string.
Variable darkMode : User → bool.
(** The query of [User.findOne] rejects. *)
Variable findOneRejects : bool.

(** Lines 69-97. The awaits are outside any [try]: a rejection leaves the
    handler without a reply. *)
Definition authUser (name password : string) (session : option AuthSession) (db : DB)
    : option Reply * option AuthSession :=
  match validateLoginInput name password with
  | Some error =>
      (Some (mkReply 400 (RenderAuth "auth/login" (ServerController.error_message error))),
       session)
  | None =>
      if findOneRejects then (None, session)
      else
        match findOne name db with
        | None => (Some (mkReply 400 (RenderAuth "auth/login" "User does not exist.")), session)
        | Some user =>
            match comparePassword password (hashedPassword user.2) with
            | inl _ => (None, session)
            | inr false =>
                (Some (mkReply 401 (RenderAuth "auth/login" "Invalid username or password.")),
                 session)
            | inr true =>
                (Some (plain (redirected ("/user/" +:+ user.1))),
                 Some (mkAuthSession user.1 (username user.2) (darkMode user.2)))
            end
        end
  end.

(** Lines 104-108. *)
Definition logout (session : option AuthSession) : Reply * option AuthSession :=
  (plain (redirected "/"), None).

End Handlers.
End AuthController.

(** ** [public/js/user/edit.js] *)
Module EditPage.

(** Lines 1-11: the value given to the theme selector, from
    [localStorage.getItem("userTheme")] ([None]: the key is not set). *)
Definition setDefaults (stored : option string) : string :=
  let theme := match stored with Some t => t | None => "light" end in
  if negb (String.eqb theme "light") && negb (String.eqb theme "dark")
  then "light" else theme.

(** What the page does, in order. *)
Inductive Action :=
| PreventDefault
| ShowLoader
| HideLoader
| SetHeading (text : string)
| SetTheme
| PrintMessage (message : string)
| ReplaceLocation (url : string).

(** [response.json()]: the [error] field of the body, or a rejection. *)
Inductive JsonResult := JsonBody (error : string) | JsonRejects (message : string).

(** [fetch]: a rejection, or a response with its status. *)
Inductive FetchResult :=
| FetchRejects (message : string)
| FetchResponse (status : Z) (json : JsonResult).

(** [response.ok]. *)
Definition ok (status : Z) : bool := (200 <=? status)%Z && (status <=? 299)%Z.

Record FormBody := mkFormBody { form_username : string; form_theme : string }.

(** Lines 15-48. [form]: the result of [getFormRequestBody], or the message of
    what it throws; [heading]: whether the element "edit__username" exists,
    and the message of the [TypeError] when it does not. The other helpers
    of the page are taken not to throw. *)
Definition updateUser (form : string + FormBody) (fetched : FetchResult)
    (heading : option string) (stored : option string) : list Action * option string :=
  match form with
  | inl message => ([PreventDefault; HideLoader; PrintMessage message], stored)
  | inr requestBody =>
      match fetched with
      | FetchRejects message =>
          ([PreventDefault; ShowLoader; HideLoader; PrintMessage message], stored)
      | FetchResponse status json =>
          if ok status then
            match heading with
            | Some message =>
                ([PreventDefault; ShowLoader; HideLoader; HideLoader; PrintMessage message],
                 stored)
            | None =>
                ([PreventDefault; ShowLoader; HideLoader;
                  SetHeading ("Editing " +:+ form_username requestBody +:+ "'s Profile");
                  SetTheme; PrintMessage "Successfully updated user."],
                 Some (form_theme requestBody))
            end
          else if (status =? 401)%Z then
            ([PreventDefault; ShowLoader; HideLoader; ReplaceLocation "/login"], stored)
          else
            match json with
            | JsonBody error =>
                ([PreventDefault; ShowLoader; HideLoader; PrintMessage error], stored)
            | JsonRejects message =>
                ([PreventDefault; ShowLoader; HideLoader; HideLoader; PrintMessage message],
                 stored)
            end
      end
  end.



End EditPage.

(** ** Vocabulary of the further properties *)

(** What [loginUser] and [createUser] promise about their outcome: either the
    session is as it was, or the reply is the url of the profile of the user
    the session now stands for, and that session is never sent the public
    page of that profile. *)
Definition leadsHome (bio theme : User → string) (servers : User → list string)
    (validateMongooseId : string → string → Error + string)
    (session : option UserPages.SessionData)
    (out : Reply * option UserPages.SessionData * DB) : Prop :=
  match reply_body out.1.1 with
  | JsonUrl url =>
      ∃ sd, out.1.2 = Some sd ∧ url = "/user/" +:+ UserPages.sd_id sd
        ∧ (truthy (UserPages.sd_id sd) = true →
           ∀ db name b,
             reply_body (UserPages.renderUserProfilePage bio theme servers validateMongooseId
                           (Some (UserPages.sessionUser sd)) (UserPages.sd_id sd) db)
             ≠ RenderPublicProfile name b)
  | _ => out.1.2 = session
  end.

(** The messages of a rendered channel page. *)
Definition pageMessages (r : Response) : list MessageView :=
  match payload r with
  | RenderChannelMain _ _ _ msgs _ => msgs
  | _ => []
  end.

(** How far a run of [deleteUser] has answered its caller. *)
Definition answered (c : DeleteUser.Config) : Prop :=
  let done := List.filter DeleteUser.handlerEvent (DeleteUser.trace c) in
  match DeleteUser.pc c with
  | DeleteUser.Returned =>
      (DeleteUser.sessionAlive c = false
       ∧ DeleteUser.response c = Some (mkResponse 204 JsonEmpty)
       ∧ ∃ r, done = [DeleteUser.Done (DeleteUser.DeleteUserPrivateMessages r);
                      DeleteUser.Done (DeleteUser.DeleteUserRecord r);
                      DeleteUser.SessionDestroyed])
      ∨ (DeleteUser.sessionAlive c = true
         ∧ (∃ e, DeleteUser.response c = Some (jsonCatch e))
         ∧ (done = [] ∨ ∃ r, done = [DeleteUser.Done (DeleteUser.DeleteUserPrivateMessages r)]))
  | _ => DeleteUser.sessionAlive c = true ∧ DeleteUser.response c = None
  end.

(** * Properties *)

(** ** Channel access *)
Section ChannelAccess.
Import ChannelController.

Lemma includes_findUser (U : string) (l : list ServerUser) :
  includes U (map su_id l) = true ↔ ∃ userObj, findUser U l = Some userObj.
Proof.
  unfold includes, findUser. induction l as [|e l IH]; simpl.
  - split; [discriminate | intros [? ?]; discriminate].
  - rewrite (String.eqb_sym U (su_id e)).
    destruct (String.eqb (su_id e) U); simpl; [|exact IH].
    split; eauto.
Qed.

Lemma findUser_Some (U : string) (l : list ServerUser) (userObj : ServerUser) :
  findUser U l = Some userObj → userObj ∈ l ∧ su_id userObj = U.
Proof.
  unfold findUser. intros H. apply find_some in H as [Hin Heq].
  split; [by apply list_elem_of_In | by apply String.eqb_eq].
Qed.

Lemma findUser_None (U : string) (l : list ServerUser) :
  findUser U l = None → U ∉ map su_id l.
Proof.
  intros H Hin. apply list_elem_of_fmap in Hin as [e [-> Hin]].
  unfold findUser in H. apply list_elem_of_In in Hin.
  pose proof (find_none _ _ H e Hin) as Hne. simpl in Hne.
  by rewrite String.eqb_refl in Hne.
Qed.

(** With one entry per id, the entry [find] returns is the only one. *)
Lemma findUser_unique (U : string) (l : list ServerUser) (e : ServerUser) :
  NoDup (map su_id l) → e ∈ l → su_id e = U → findUser U l = Some e.
Proof.
  unfold findUser. induction l as [|x l IH]; intros Hnd Hin Hid.
  - by apply not_elem_of_nil in Hin.
  - simpl in *. apply NoDup_cons in Hnd as [Hx Hnd].
    apply elem_of_cons in Hin as [->|Hin].
    + subst U. by rewrite String.eqb_refl.
    + destruct (String.eqb (su_id x) U) eqn:Hx'; [|by apply IH].
      apply String.eqb_eq in Hx'. exfalso. apply Hx.
      apply list_elem_of_fmap. exists e. split; [congruence | done].
Qed.

(** What the gate returns, case by case. *)
Lemma permissionGate_cases session server channel msgs :
  permissionGate session server channel msgs =
    match session_identity session with
    | None => inr forbidden
    | Some U =>
        match findUser U (users server) with
        | None => inr forbidden
        | Some userObj =>
            if (permissionLevel channel <=? su_permissionLevel userObj)%Z
            then inr (mkResponse 200
                        (RenderChannelMain (serverId channel) (channel_name channel)
                           (description channel) msgs true))
            else inr forbidden
        end
    end.
Proof.
  unfold permissionGate, session_identity.
  destruct session as [user|]; [|done].
  destruct (truthy (session_id user)); simpl; [|done].
  destruct (includes _ _) eqn:Hinc.
  - apply includes_findUser in Hinc as [e ->]. done.
  - destruct (findUser _ _) eqn:Hf; [|done].
    assert (includes (session_id user) (map su_id (users server)) = true) as Hc
      by (apply includes_findUser; eauto).
    congruence.
Qed.

(** C1, as the code has it: the channel page is rendered exactly when the
    session carries an identity [U] and the first entry of the member list
    with id [U] has a level at or above the channel's (ties grant access);
    every other outcome is the fixed 403 page, in particular for a caller
    without an entry and for a caller without a session identity. When the
    member list holds one entry per id, "the first entry of [U]" is "an
    entry of [U]". *)
Theorem channel_access_first_entry session server channel msgs :
  let r := permissionGate session server channel msgs in
  (granted r = true ↔
     ∃ U userObj, session_identity session = Some U
       ∧ findUser U (users server) = Some userObj
       ∧ (permissionLevel channel ≤ su_permissionLevel userObj)%Z)
  ∧ (granted r = false → r = inr forbidden)
  ∧ (∀ U, session_identity session = Some U → U ∉ map su_id (users server) →
       r = inr forbidden)
  ∧ (session_identity session = None → r = inr forbidden)
  ∧ (∀ U, session_identity session = Some U → NoDup (map su_id (users server)) →
       (granted r = true ↔
          ∃ userObj, userObj ∈ users server ∧ su_id userObj = U
            ∧ (permissionLevel channel ≤ su_permissionLevel userObj)%Z)).
Proof.
  intros r. subst r. rewrite permissionGate_cases.
  destruct (session_identity session) as [U|] eqn:Hs.
  2:{ split; [|split; [|split; [|split]]]; try done.
      - split; [done|]. intros [U [e [? _]]]. discriminate. }
  destruct (findUser U (users server)) as [e|] eqn:Hf.
  2:{ split; [|split; [|split; [|split]]]; try done.
      - split; [done|]. intros [U' [e [HU [Hf' _]]]]. congruence.
      - intros U' HU Hnd. injection HU as <-. split; [done|].
        intros [e [Hin [Hid _]]].
        rewrite (findUser_unique _ _ _ Hnd Hin Hid) in Hf. discriminate. }
  pose proof (findUser_Some _ _ _ Hf) as [Hin Hid].
  destruct (Z.leb_spec (permissionLevel channel) (su_permissionLevel e)) as [Hle|Hlt];
    simpl; (split; [|split; [|split; [|split]]]); try done.
  - split; [|done]. intros _. exists U, e. done.
  - intros U' HU Hnot. injection HU as <-. exfalso. apply Hnot.
    apply list_elem_of_fmap. exists e. done.
  - intros U' HU Hnd. injection HU as <-. split; [|done]. intros _. eauto.
  - split; [done|]. intros [U' [e' [HU [Hf' Hle]]]]. simplify_eq. lia.
  - intros U' HU Hnd. injection HU as <-. split; [done|].
    intros [e' [Hin' [Hid' Hle]]].
    rewrite (findUser_unique _ _ _ Hnd Hin' Hid') in Hf. simplify_eq. lia.
Qed.

Lemma channel_access_first_entry_witness :
  session_identity (Some (mkSessionUser "owner")) = Some "owner"
  ∧ NoDup (map su_id (users Samples.plainServer))
  ∧ (granted (permissionGate (Some (mkSessionUser "owner")) Samples.plainServer
                Samples.plainChannel []) = true ↔
       ∃ userObj, userObj ∈ users Samples.plainServer ∧ su_id userObj = "owner"
         ∧ (permissionLevel Samples.plainChannel ≤ su_permissionLevel userObj)%Z).
Proof.
  assert (session_identity (Some (mkSessionUser "owner")) = Some "owner") as Hs
    by reflexivity.
  assert (NoDup (map su_id (users Samples.plainServer))) as Hnd
    by (simpl; apply NoDup_singleton).
  split; [exact Hs|]. split; [exact Hnd|].
  exact (proj2 (proj2 (proj2 (proj2
    (channel_access_first_entry (Some (mkSessionUser "owner")) Samples.plainServer
       Samples.plainChannel [])))) "owner" Hs Hnd).
Defined.

(** C1, as the claim words it, fails on a member list with two entries for
    one id: [find] stops at the first, level 1, and the caller is refused a
    level-3 channel although the second entry has level 5. *)
Lemma channel_access_any_entry_counterexample :
  ¬ (granted (permissionGate (Some (mkSessionUser "u")) Samples.twiceListed
                Samples.level3 []) = true ↔
       ∃ userObj, userObj ∈ users Samples.twiceListed ∧ su_id userObj = "u"
         ∧ (permissionLevel Samples.level3 ≤ su_permissionLevel userObj)%Z).
Proof.
  intros [_ H].
  assert (granted (permissionGate (Some (mkSessionUser "u")) Samples.twiceListed
                     Samples.level3 []) = true) as Hg.
  { apply H. exists (mkServerUser "u" 5). split; [|split].
    - simpl. set_solver.
    - reflexivity.
    - simpl. lia. }
  vm_compute in Hg. discriminate.
Qed.

(** The permission boundary: a member with level 3 is refused a level-4
    channel, a member with level 4 is let in. *)
Example level_3_refused_at_4 :
  permissionGate (Some (mkSessionUser "m")) (mkServer "s" "o" [mkServerUser "m" 3] [])
    (mkChannel "s1" "c" "" 4 []) [] = inr forbidden.
Proof. reflexivity. Qed.

Example level_4_granted_at_4 :
  granted (permissionGate (Some (mkSessionUser "m"))
             (mkServer "s" "o" [mkServerUser "m" 4] []) (mkChannel "s1" "c" "" 4 []) [])
  = true.
Proof. reflexivity. Qed.

(** ** What a denied caller is sent *)

Variable validateMongooseId : string → string → Error + string.

Lemma renderChannelMainPage_loaded session channelIdParam db channel server msgs :
  loadChannelPage validateMongooseId db channelIdParam = inr (channel, server, msgs) →
  denied session server channel →
  renderChannelMainPage validateMongooseId session channelIdParam db = forbidden.
Proof.
  intros Hload Hden. unfold renderChannelMainPage. rewrite Hload. simpl.
  rewrite permissionGate_cases. unfold denied in Hden.
  destruct (session_identity session) as [U|]; [|done].
  destruct (findUser U (users server)) as [e|]; [|done].
  destruct (Z.leb_spec (permissionLevel channel) (su_permissionLevel e)); [lia|done].
Qed.

(** C10, as the code has it: the handler loads the channel, its server, its
    messages and their authors before it looks at the session. When all of
    that loads, a denied caller is sent the fixed 403 page, whatever was
    loaded, so two such runs answer alike; when loading throws, every
    caller is sent the page of the error. *)
Theorem denied_caller_response session channelIdParam db :
  (∀ channel server msgs,
      loadChannelPage validateMongooseId db channelIdParam = inr (channel, server, msgs) →
      denied session server channel →
      renderChannelMainPage validateMongooseId session channelIdParam db = forbidden)
  ∧ (∀ db2 channel server msgs channel2 server2 msgs2,
      loadChannelPage validateMongooseId db channelIdParam = inr (channel, server, msgs) →
      loadChannelPage validateMongooseId db2 channelIdParam
        = inr (channel2, server2, msgs2) →
      denied session server channel →
      denied session server2 channel2 →
      renderChannelMainPage validateMongooseId session channelIdParam db
      = renderChannelMainPage validateMongooseId session channelIdParam db2)
  ∧ (∀ error,
      loadChannelPage validateMongooseId db channelIdParam = inl error →
      renderChannelMainPage validateMongooseId session channelIdParam db
      = renderCatch error).
Proof.
  split; [|split].
  - intros channel server msgs. apply renderChannelMainPage_loaded.
  - intros db2 channel server msgs channel2 server2 msgs2 H1 H2 D1 D2.
    rewrite (renderChannelMainPage_loaded _ _ _ _ _ _ H1 D1).
    by rewrite (renderChannelMainPage_loaded _ _ _ _ _ _ H2 D2).
  - intros error Hload. unfold renderChannelMainPage. by rewrite Hload.
Qed.

End ChannelAccess.

(** ** The friend operations *)

Lemma getUserByUsername_lookup name db doc db' :
  UserService.getUserByUsername name db = (inr doc, db') →
  db_users db !! doc.1 = Some doc.2 ∧ db' = db.
Proof.
  unfold UserService.getUserByUsername, readM.
  destruct (List.find _ _) as [d|] eqn:Hf; [|discriminate].
  intros [= -> <-]. split; [|done].
  apply find_some in Hf as [Hin _]. apply list_elem_of_In in Hin.
  destruct doc as [k u]. by apply elem_of_map_to_list in Hin.
Qed.

Lemma getUserById_found id db u :
  db_users db !! id = Some u → UserService.getUserById id db = (inr (id, u), db).
Proof.
  intros H. unfold UserService.getUserById, readM, Reads.getUserById. by rewrite H.
Qed.

Lemma bindM_inr {A B} (m : M A) (f : A → M B) db a db' :
  m db = (inr a, db') → bindM m f db = f a db'.
Proof. intros H. unfold bindM. by rewrite H. Qed.

Lemma bindM_inl {A B} (m : M A) (f : A → M B) db e db' :
  m db = (inl e, db') → bindM m f db = (inl e, db').
Proof. intros H. unfold bindM. by rewrite H. Qed.

Lemma sessionUserId_found req A db :
  UserController.session req = Some (mkSessionUser A) →
  UserController.sessionUserId req db = (inr A, db).
Proof. intros H. unfold UserController.sessionUserId. by rewrite H. Qed.

Lemma between_sym a b pm :
  PrivateMessageService.between a b pm = PrivateMessageService.between b a pm.
Proof. unfold PrivateMessageService.between. apply orb_comm. Qed.

Lemma conversations_sym a b db :
  PrivateMessageService.conversations a b db = PrivateMessageService.conversations b a db.
Proof.
  unfold PrivateMessageService.conversations. f_equal.
  apply List.filter_ext. intros pm. apply between_sym.
Qed.

Lemma existsb_filter_length {X} (p : X → bool) (l : list X) :
  existsb p l = false ↔ length (List.filter p l) = 0.
Proof.
  induction l as [|x l IH]; simpl; [done|].
  destruct (p x); simpl; [split; discriminate | exact IH].
Qed.

Lemma friendsOf_lookup db a u : db_users db !! a = Some u → friendsOf db a = friends u.
Proof. intros H. unfold friendsOf. by rewrite H. Qed.

Lemma requestsOf_lookup db a u :
  db_users db !! a = Some u → requestsOf db a = friendRequests u.
Proof. intros H. unfold requestsOf. by rewrite H. Qed.

Section FriendOperations.

(** C2 on the modelled services: when [B] has asked [A] and [A] sends a
    request to [B], the handler writes the marker [A → B], has it accepted
    and creates the conversation. Both end up in each other's [friends]
    set and the marker [A → B] is gone, but the marker [B → A], the one
    that was pending, is still in [A]'s [friendRequests]. *)
Theorem cross_request_leaves_marker
    (validateCreateFriendRequestInfo : string → Error + string)
    (policy : PrivateMessageService.DuplicatePolicy) req db A B name uA uB :
  UserController.session req = Some (mkSessionUser A) →
  validateCreateFriendRequestInfo (UserController.body_username req) = inr name →
  UserService.getUserByUsername name db = (inr (B, uB), db) →
  db_users db !! A = Some uA →
  B ∈ friendRequests uA →
  A ≠ B →
  PrivateMessageService.conversations A B db = 0 →
  let out := UserController.sendFriendRequest validateCreateFriendRequestInfo policy req db in
  out.1 = mkResponse 204 JsonEmpty
  ∧ areFriends out.2 A B
  ∧ (A ∉ requestsOf out.2 B)
  ∧ PrivateMessageService.conversations A B out.2 = 1
  ∧ B ∈ requestsOf out.2 A.
Proof.
  intros Hsess Hval Hname HA Hreq Hne Hconv out. subst out.
  pose proof (getUserByUsername_lookup _ _ _ _ Hname) as [HB _]. simpl in HB.
  unfold UserController.sendFriendRequest, tryCatch.
  erewrite bindM_inr by (unfold liftE; rewrite Hval; reflexivity).
  erewrite bindM_inr by (by apply sessionUserId_found).
  erewrite bindM_inr by exact Hname.
  erewrite bindM_inr by (by apply getUserById_found).
  cbn [fst snd]. rewrite bool_decide_true by done.
  unfold UserService.sendFriendRequest, UserService.acceptFriendRequest, modifyM,
    PrivateMessageService.createPrivateMessage, bindM, ret. cbn [fst snd].
  assert (existsb (PrivateMessageService.between B A) (db_privateMessages db) = false)
    as Hnone by (apply existsb_filter_length; by rewrite conversations_sym in Hconv).
  cbn [set_users db_privateMessages]. rewrite Hnone. cbn [fst snd].
  split; [done|].
  unfold areFriends, friendsOf, requestsOf, PrivateMessageService.conversations.
  cbn [set_users set_privateMessages db_users db_privateMessages].
  rewrite lookup_alter_eq, lookup_alter_ne, lookup_alter_ne, HA by done.
  rewrite lookup_alter_ne, lookup_alter_eq, lookup_alter_eq, HB by done.
  cbn [fmap option_fmap option_map UserService.with_friends
         UserService.with_friendRequests friends friendRequests].
  rewrite List.filter_app, length_app.
  apply existsb_filter_length in Hnone.
  rewrite (List.filter_ext _ _ (between_sym A B)), Hnone.
  split; [set_solver|]. split; [set_solver|]. split; [|done].
  cbn. unfold PrivateMessageService.between. cbn.
  by rewrite !String.eqb_refl, orb_true_r.
Qed.

Lemma filter_remove_first (p : PrivateMessage → bool) (l : list PrivateMessage) :
  length (List.filter p (PrivateMessageService.remove_first p l))
  = length (List.filter p l) - 1.
Proof.
  induction l as [|pm l IH]; simpl; [done|].
  destruct (p pm) eqn:Hp; simpl; [lia|]. rewrite Hp. exact IH.
Qed.

(** C5 on the modelled services: when the pair already has a conversation,
    [addFriend] stores no further one. The call answers 200 when a second
    creation is a no-op and with the reported error when it is an error;
    for a pair in state [FRIENDS] the store is left as it was. *)
Theorem second_accept_no_duplicate
    (validateMongooseId : string → string → Error + string)
    (policy : PrivateMessageService.DuplicatePolicy) req db A B uA uB :
  UserController.session req = Some (mkSessionUser A) →
  validateMongooseId (UserController.body_requesterId req) "requesterId" = inr B →
  db_users db !! A = Some uA →
  db_users db !! B = Some uB →
  0 < PrivateMessageService.conversations A B db →
  let out := UserController.addFriend validateMongooseId policy req db in
  PrivateMessageService.conversations A B out.2
    = PrivateMessageService.conversations A B db
  ∧ db_privateMessages out.2 = db_privateMessages db
  ∧ out.1 = match policy with
            | PrivateMessageService.DuplicateIsNoOp =>
                mkResponse 200 (JsonFriend B (username uB))
            | PrivateMessageService.DuplicateIsError e => jsonCatch e
            end
  ∧ (areFriends db A B → ¬ pending db A B → out.2 = db).
Proof.
  intros Hsess Hval HA HB Hconv out.
  assert (existsb (PrivateMessageService.between A B) (db_privateMessages db) = true)
    as Hsome.
  { destruct (existsb _ _) eqn:Hex; [done|].
    apply existsb_filter_length in Hex.
    unfold PrivateMessageService.conversations in Hconv. lia. }
  assert (out = (match policy with
                 | PrivateMessageService.DuplicateIsNoOp =>
                     mkResponse 200 (JsonFriend B (username uB))
                 | PrivateMessageService.DuplicateIsError e => jsonCatch e
                 end,
                 set_users (λ us,
                   alter (UserService.with_friends (λ s, s ∪ {[A]})) B
                     (alter (λ u, UserService.with_friends (λ s, s ∪ {[B]})
                                    (UserService.with_friendRequests (λ s, s ∖ {[B]}) u))
                        A us)) db)) as ->.
  { subst out. unfold UserController.addFriend, tryCatch.
    erewrite bindM_inr by (unfold liftE; rewrite Hval; reflexivity).
    erewrite bindM_inr by (by apply sessionUserId_found).
    erewrite bindM_inr by (by apply getUserById_found).
    erewrite bindM_inr by (by apply getUserById_found).
    unfold UserService.acceptFriendRequest, modifyM,
      PrivateMessageService.createPrivateMessage, bindM, ret. cbn [fst snd].
    cbn [set_users db_privateMessages]. rewrite Hsome.
    by destruct policy. }
  cbn [fst snd]. split; [done|]. split; [done|]. split; [done|].
  intros [HfA HfB] Hpend.
  rewrite (friendsOf_lookup _ _ _ HA) in HfA.
  rewrite (friendsOf_lookup _ _ _ HB) in HfB.
  assert (B ∉ friendRequests uA) as HrA.
  { intros Hin. apply Hpend. right. by rewrite (requestsOf_lookup _ _ _ HA). }
  destruct db as [us ss cs ms pms]. unfold set_users. cbn in *. f_equal.
  rewrite (alter_id _ us A).
  - apply alter_id. intros u Hu. assert (u = uB) as -> by congruence.
    destruct uB as [n f r]. unfold UserService.with_friends. cbn in *.
    f_equal. set_solver.
  - intros u Hu. assert (u = uA) as -> by congruence. destruct uA as [n f r].
    unfold UserService.with_friends, UserService.with_friendRequests. cbn in *.
    f_equal; set_solver.
Qed.

(** C7 on the modelled services: for a pair in state [FRIENDS] with its
    conversation, [removeFriend] answers 204, takes each out of the other's
    [friends] set and deletes the conversation; it leaves the
    [friendRequests] of both as they were, so the pair is then in state
    [NONE] exactly when no pending marker stood between them. *)
Theorem removeFriend_removes_friendship
    (validateMongooseId : string → string → Error + string) req db A B uA uB :
  UserController.session req = Some (mkSessionUser B) →
  validateMongooseId (UserController.body_friendId req) "friendId" = inr A →
  db_users db !! A = Some uA →
  db_users db !! B = Some uB →
  A ≠ B →
  areFriends db A B →
  PrivateMessageService.conversations A B db = 1 →
  let out := UserController.removeFriend validateMongooseId req db in
  out.1 = mkResponse 204 JsonEmpty
  ∧ (B ∉ friendsOf out.2 A) ∧ (A ∉ friendsOf out.2 B)
  ∧ PrivateMessageService.conversations A B out.2 = 0
  ∧ requestsOf out.2 A = requestsOf db A
  ∧ requestsOf out.2 B = requestsOf db B
  ∧ (strangers out.2 A B ↔ ¬ pending db A B).
Proof.
  intros Hsess Hval HA HB Hne _ Hconv out.
  assert (out = (mkResponse 204 JsonEmpty,
                 set_users (λ us,
                   alter (UserService.with_friends (λ s, s ∖ {[A]})) B
                     (alter (UserService.with_friends (λ s, s ∖ {[B]})) A us))
                   (set_privateMessages
                      (PrivateMessageService.remove_first
                         (PrivateMessageService.between A B)) db))) as ->.
  { subst out. unfold UserController.removeFriend, tryCatch.
    erewrite bindM_inr by (unfold liftE; rewrite Hval; reflexivity).
    erewrite bindM_inr by (by apply sessionUserId_found).
    erewrite bindM_inr by (by apply getUserById_found).
    erewrite bindM_inr by (by apply getUserById_found).
    reflexivity. }
  cbn [fst snd]. split; [done|].
  unfold strangers, pending, friendsOf, requestsOf, PrivateMessageService.conversations
    in *.
  cbn [set_users set_privateMessages db_users db_privateMessages].
  rewrite lookup_alter_ne, lookup_alter_eq, lookup_alter_eq, lookup_alter_ne by done.
  rewrite HA, HB.
  cbn [fmap option_fmap option_map UserService.with_friends friends friendRequests].
  rewrite filter_remove_first, Hconv.
  split; [set_solver|]. split; [set_solver|]. split; [done|]. split; [done|].
  split; [done|]. split.
  - intros (H1 & H2 & _). tauto.
  - intros Hnone. split; [tauto|]. split; [tauto|]. split; set_solver.
Qed.

(** C4 on the modelled services: from two users in state [NONE] the friend
    operations reach a store in which the pair is at once [FRIENDS] and
    [PENDING]: Bob asks Alice, then Alice asks Bob. *)
Theorem pending_and_friends_reachable (policy : PrivateMessageService.DuplicatePolicy) :
  strangers Samples.twoStrangers "a" "b"
  ∧ ∃ db, rtc (friendStep Samples.acceptName Samples.acceptId policy)
            Samples.twoStrangers db
      ∧ areFriends db "a" "b" ∧ pending db "a" "b".
Proof.
  split.
  { unfold strangers. repeat split; compute_done. }
  eexists. split.
  - eapply rtc_l.
    { apply (step_sendFriendRequest _ _ _ (Samples.fromBob "alice" "" "")). }
    eapply rtc_l.
    { apply (step_sendFriendRequest _ _ _ (Samples.fromAlice "bob" "" "")). }
    apply rtc_refl.
  - split; [split|right]; compute_done.
Qed.
End FriendOperations.

Lemma cross_request_leaves_marker_witness :
  "b" ∈ requestsOf Samples.bobAsked "a"
  ∧ (UserController.sendFriendRequest Samples.acceptName
       PrivateMessageService.DuplicateIsNoOp (Samples.fromAlice "bob" "" "")
       Samples.bobAsked).1 = mkResponse 204 JsonEmpty
  ∧ "b" ∈ requestsOf
            (UserController.sendFriendRequest Samples.acceptName
               PrivateMessageService.DuplicateIsNoOp (Samples.fromAlice "bob" "" "")
               Samples.bobAsked).2 "a".
Proof.
  split; [compute_done|].
  pose proof (cross_request_leaves_marker Samples.acceptName
                PrivateMessageService.DuplicateIsNoOp (Samples.fromAlice "bob" "" "")
                Samples.bobAsked "a" "b" "bob"
                (mkUser "alice" ∅ {[ "b" ]}) (mkUser "bob" ∅ ∅)) as H.
  destruct H as (Hr & _ & _ & _ & Hleft).
  - reflexivity.
  - reflexivity.
  - vm_compute. reflexivity.
  - vm_compute. reflexivity.
  - compute_done.
  - discriminate.
  - vm_compute. reflexivity.
  - split; [exact Hr | exact Hleft].
Defined.

Lemma second_accept_no_duplicate_witness :
  0 < PrivateMessageService.conversations "a" "b" Samples.twoFriends
  ∧ db_privateMessages
      (UserController.addFriend Samples.acceptId PrivateMessageService.DuplicateIsNoOp
         (Samples.fromAlice "" "b" "") Samples.twoFriends).2
    = db_privateMessages Samples.twoFriends.
Proof.
  assert (0 < PrivateMessageService.conversations "a" "b" Samples.twoFriends) as Hc
    by (vm_compute; lia).
  split; [exact Hc|].
  pose proof (second_accept_no_duplicate Samples.acceptId
                PrivateMessageService.DuplicateIsNoOp (Samples.fromAlice "" "b" "")
                Samples.twoFriends "a" "b"
                (mkUser "alice" {[ "b" ]} ∅) (mkUser "bob" {[ "a" ]} ∅)) as H.
  destruct H as (_ & Hsame & _).
  - reflexivity.
  - reflexivity.
  - vm_compute. reflexivity.
  - vm_compute. reflexivity.
  - exact Hc.
  - exact Hsame.
Defined.

Lemma removeFriend_removes_friendship_witness :
  areFriends Samples.twoFriends "a" "b"
  ∧ PrivateMessageService.conversations "a" "b" Samples.twoFriends = 1
  ∧ PrivateMessageService.conversations "a" "b"
      (UserController.removeFriend Samples.acceptId (Samples.fromBob "" "" "a")
         Samples.twoFriends).2 = 0
  ∧ (strangers
       (UserController.removeFriend Samples.acceptId (Samples.fromBob "" "" "a")
          Samples.twoFriends).2 "a" "b"
     ↔ ¬ pending Samples.twoFriends "a" "b").
Proof.
  assert (areFriends Samples.twoFriends "a" "b") as Hf by (split; compute_done).
  assert (PrivateMessageService.conversations "a" "b" Samples.twoFriends = 1) as Hc
    by (vm_compute; reflexivity).
  split; [exact Hf|]. split; [exact Hc|].
  pose proof (removeFriend_removes_friendship Samples.acceptId (Samples.fromBob "" "" "a")
                Samples.twoFriends "a" "b"
                (mkUser "alice" {[ "b" ]} ∅) (mkUser "bob" {[ "a" ]} ∅)) as H.
  destruct H as (_ & _ & _ & Hzero & _ & _ & Hnone).
  - reflexivity.
  - reflexivity.
  - vm_compute. reflexivity.
  - vm_compute. reflexivity.
  - discriminate.
  - exact Hf.
  - exact Hc.
  - split; [exact Hzero | exact Hnone].
Defined.

(** C7, as the claim words it, fails on a store the friend operations reach:
    after Bob has asked Alice and Alice has asked Bob the two are friends
    with one conversation, and Bob is still in Alice's [friendRequests];
    [removeFriend] answers 204, and the pair is left [PENDING], not [NONE]. *)
Lemma removeFriend_leaves_marker_counterexample :
  rtc (friendStep Samples.acceptName Samples.acceptId PrivateMessageService.DuplicateIsNoOp)
    Samples.twoStrangers Samples.afterCrossRequest
  ∧ areFriends Samples.afterCrossRequest "a" "b"
  ∧ PrivateMessageService.conversations "a" "b" Samples.afterCrossRequest = 1
  ∧ (UserController.removeFriend Samples.acceptId (Samples.fromAlice "" "" "b")
       Samples.afterCrossRequest).1 = mkResponse 204 JsonEmpty
  ∧ pending
      (UserController.removeFriend Samples.acceptId (Samples.fromAlice "" "" "b")
         Samples.afterCrossRequest).2 "a" "b"
  ∧ ¬ strangers
        (UserController.removeFriend Samples.acceptId (Samples.fromAlice "" "" "b")
           Samples.afterCrossRequest).2 "a" "b".
Proof.
  split.
  { unfold Samples.afterCrossRequest. eapply rtc_l.
    { apply (step_sendFriendRequest _ _ _ (Samples.fromBob "alice" "" "")). }
    eapply rtc_l.
    { apply (step_sendFriendRequest _ _ _ (Samples.fromAlice "bob" "" "")). }
    apply rtc_refl. }
  split; [split; compute_done|]. split; [vm_compute; reflexivity|].
  split; [vm_compute; reflexivity|].
  assert ("b" ∈ requestsOf
            (UserController.removeFriend Samples.acceptId (Samples.fromAlice "" "" "b")
               Samples.afterCrossRequest).2 "a") as Hmarker by compute_done.
  split; [by right|]. intros (_ & Hnot & _). exact (Hnot Hmarker).
Qed.


(** ** Account deletion *)

(** C3 on the code: a run of [deleteUser] in which the user record is
    deleted, the session destroyed and the 204 sent while the callback that
    removes the user's associations has not had its answer yet; the write of
    that callback comes last. The handler does wait for the deletion of the
    private conversations before it deletes the record. *)
Theorem deleteUser_record_deleted_first :
  ∃ c, DeleteUser.run CascadeSample.una CascadeSample.handlerFirst
         (DeleteUser.start CascadeSample.store) = Some c
    ∧ DeleteUser.trace c
      = [DeleteUser.Done (DeleteUser.DeleteUserPrivateMessages "u");
         DeleteUser.Done (DeleteUser.DeleteUserRecord "u");
         DeleteUser.SessionDestroyed;
         DeleteUser.Responded (mkResponse 204 JsonEmpty);
         DeleteUser.Done (DeleteUser.RemoveUserAssociations "f" "u")]
    ∧ DeleteUser.before (DeleteUser.Done (DeleteUser.DeleteUserRecord "u"))
        (DeleteUser.Done (DeleteUser.RemoveUserAssociations "f" "u")) (DeleteUser.trace c)
    ∧ DeleteUser.pool c
      = [[]; [DeleteUser.DeleteServer "s1" "u"; DeleteUser.DeleteServerChannels "s1"];
         [DeleteUser.RemoveUser "s2" "u"]]
    ∧ is_Some (db_servers (DeleteUser.store c) !! "s1").
Proof.
  eexists. split; [vm_compute; reflexivity|].
  split; [reflexivity|]. split.
  - exists [DeleteUser.Done (DeleteUser.DeleteUserPrivateMessages "u")],
      [DeleteUser.SessionDestroyed; DeleteUser.Responded (mkResponse 204 JsonEmpty)], [].
    reflexivity.
  - split; [reflexivity|]. eexists. vm_compute. reflexivity.
Qed.

(** C9 on the code: a run of [deleteUser] in which the removal of the
    user's associations rejects with an error [e]. The handler never sees
    [e]: it deletes the conversations and the user record and answers 204;
    the friend still lists the deleted user. *)
Theorem deleteUser_swallows_callback_failure (e : Error) :
  ∃ c, DeleteUser.run CascadeSample.una (CascadeSample.callbackFails e)
         (DeleteUser.start CascadeSample.store) = Some c
    ∧ DeleteUser.response c = Some (mkResponse 204 JsonEmpty)
    ∧ DeleteUser.unhandled c = [e]
    ∧ DeleteUser.trace c
      = [DeleteUser.Rejected (DeleteUser.RemoveUserAssociations "f" "u") e;
         DeleteUser.Done (DeleteUser.DeleteUserPrivateMessages "u");
         DeleteUser.Done (DeleteUser.DeleteUserRecord "u");
         DeleteUser.SessionDestroyed;
         DeleteUser.Responded (mkResponse 204 JsonEmpty)]
    ∧ db_users (DeleteUser.store c) !! "u" = None
    ∧ "u" ∈ friendsOf (DeleteUser.store c) "f".
Proof.
  eexists. split; [vm_compute; reflexivity|].
  split; [reflexivity|]. split; [reflexivity|]. split; [reflexivity|].
  split; [vm_compute; reflexivity|]. compute_done.
Qed.

(** *** What the handler does wait for *)
Section AwaitedSteps.
Import DeleteUser.

Lemma serverCallback_callbackOp r doc : Forall callbackOp (serverCallback r doc).
Proof. unfold serverCallback. destruct (String.eqb _ _); repeat constructor. Qed.

Lemma progress_step session ch c c' :
  Forall (Forall callbackOp) (pool c) → handlerProgress c →
  step session ch c = Some c' →
  Forall (Forall callbackOp) (pool c') ∧ handlerProgress c'.
Proof.
  intros Hpool Hprog Hstep. unfold handlerProgress in *.
  destruct ch as [o|i o]; cbn in Hstep.
  - unfold handlerStep in Hstep.
    destruct (pc c) eqn:Hpc; try discriminate;
      repeat match type of Hstep with
             | match ?x with _ => _ end = _ => destruct x
             end;
      injection Hstep as <-; cbn; rewrite ?List.filter_app, ?Hprog; cbn;
      rewrite ?app_nil_r; try (split; [done|]; eauto; fail).
    + split; [|done]. apply Forall_app. split; [done|].
      apply Forall_fmap, Forall_forall. intros doc _. by repeat constructor.
    + split; [|done]. apply Forall_app. split; [done|].
      apply Forall_fmap, Forall_forall. intros doc _. apply serverCallback_callbackOp.
  - unfold callbackStep in Hstep.
    destruct (pool c !! i) as [[|op rest]|] eqn:Hi; try discriminate.
    pose proof (Forall_lookup_1 _ _ _ _ Hpool Hi) as Htask.
    apply Forall_cons in Htask as [Hop Hrest].
    destruct o as [|e]; injection Hstep as <-; cbn; rewrite List.filter_app;
      destruct op; try done; cbn; rewrite app_nil_r;
      (split; [apply Forall_insert; [done|]; first [done | constructor] | done]).
Qed.

Lemma progress_run session schedule c0 c :
  Forall (Forall callbackOp) (pool c0) ∧ handlerProgress c0 →
  run session schedule c0 = Some c →
  Forall (Forall callbackOp) (pool c) ∧ handlerProgress c.
Proof.
  revert c0. induction schedule as [|ch schedule IH]; intros c0 H0 Hrun; cbn in Hrun.
  - by injection Hrun as <-.
  - destruct (step session ch c0) as [c1|] eqn:Hstep; [|discriminate].
    apply (IH c1); [|done]. destruct H0. by eapply progress_step.
Qed.

(** X7. In every run of the handler, whatever the interleaving and whichever
    calls reject: the handler's own writes come in the order "delete the
    private conversations, delete the user record, destroy the session", and
    none of them is skipped. *)
Lemma deleteUser_awaited_steps_in_order session schedule db c :
  run session schedule (start db) = Some c →
  ∃ r, List.filter handlerEvent (trace c)
       `prefix_of` [Done (DeleteUserPrivateMessages r); Done (DeleteUserRecord r);
                    SessionDestroyed].
Proof.
  intros Hrun.
  assert (Forall (Forall callbackOp) (pool (start db)) ∧ handlerProgress (start db))
    as H0 by (split; [constructor | reflexivity]).
  destruct (progress_run _ _ _ _ H0 Hrun) as [_ Hprog].
  unfold handlerProgress in Hprog.
  destruct (pc c); try (exists ""; rewrite Hprog; apply prefix_nil).
  - exists removedUser. rewrite Hprog. by exists [Done (DeleteUserRecord removedUser);
                                                 SessionDestroyed].
  - destruct Hprog as [->|[r [->| ->]]].
    + exists "". apply prefix_nil.
    + exists r. by exists [Done (DeleteUserRecord r); SessionDestroyed].
    + by exists r.
Qed.

(** A callback that rejects changes neither the store nor the handler: the
    error goes to the list of rejections that nobody handles. *)
Lemma callback_rejection_unseen i e c c' :
  callbackStep i (Rejects e) c = Some c' →
  store c' = store c ∧ pc c' = pc c ∧ response c' = response c
  ∧ unhandled c' = unhandled c ++ [e].
Proof.
  unfold callbackStep. destruct (pool c !! i) as [[|op rest]|]; try discriminate.
  by intros [= <-].
Qed.

(** A call the handler awaits and that rejects ends the handler in its
    [catch] block: the caller is sent the status and message of a
    [BaseError], or the masked 500, and the handler makes no further write. *)
Lemma handler_rejection_reported user e c c' :
  handlerStep (Some user) (Rejects e) c = Some c' →
  response c' = Some (jsonCatch e) ∧ pc c' = Returned ∧ store c' = store c.
Proof.
  unfold handlerStep. destruct (pc c); try discriminate; by intros [= <-].
Qed.

(** The same for the friend controllers, whose calls are all awaited inside
    [try]: an error thrown by any step is the response. *)
Lemma tryCatch_reports body handler db e db' :
  body db = (inl e, db') → tryCatch body handler db = (handler e, db').
Proof. intros H. unfold tryCatch. by rewrite H. Qed.

End AwaitedSteps.

(** *** What one service call does to servers, channels and messages *)
Section CascadeEffects.
Import DeleteUser CascadeInvariant.

Lemma effect_servers_None op db s :
  db_servers db !! s = None → db_servers (effect op db) !! s = None.
Proof.
  intros H. destruct op; cbn; try done.
  - by apply lookup_delete_None; right.
  - apply lookup_alter_None. done.
Qed.

Lemma effect_servers_other op db s :
  (∀ r, op ≠ DeleteServer s r) → (∀ r, op ≠ RemoveUser s r) →
  db_servers (effect op db) !! s = db_servers db !! s.
Proof.
  intros H1 H2. destruct op; cbn; try done.
  - apply lookup_delete_ne. intros ->. by eapply H1.
  - apply lookup_alter_ne. intros ->. by eapply H2.
Qed.

Lemma effect_channels_other op db cid ch :
  op ≠ DeleteServerChannels (serverId ch) →
  db_channels db !! cid = Some ch →
  db_channels (effect op db) !! cid = Some ch.
Proof.
  intros Hne H. destruct op; cbn; try done.
  apply map_lookup_filter_Some. split; [done|]. cbn. intros Heq.
  apply Hne. by rewrite Heq.
Qed.

Lemma effect_gone op db cid ch : gone cid ch db → gone cid ch (effect op db).
Proof.
  intros [Hc Hm]. destruct op; cbn; try (split; done).
  split.
  - apply map_lookup_filter_None. by left.
  - intros m Hin. cbn. apply map_lookup_filter_None. left. by apply Hm.
Qed.

Lemma deleteServerChannels_gone db cid ch :
  db_channels db !! cid = Some ch →
  gone cid ch (effect (DeleteServerChannels (serverId ch)) db).
Proof.
  intros H. split; cbn.
  - apply map_lookup_filter_None. right. intros ch' Hch'. cbn.
    assert (ch' = ch) as -> by congruence. tauto.
  - intros m Hin. apply map_lookup_filter_None. right. intros msg _. cbn.
    intros Hnot. apply Hnot. apply list_elem_of_In, in_concat.
    exists (messages ch). split; [|by apply list_elem_of_In].
    apply in_map_iff. exists (cid, ch). split; [done|].
    apply list_elem_of_In, elem_of_map_to_list.
    apply map_lookup_filter_Some. done.
Qed.

Lemma without_member_idem U srv :
  Cascade.without_member U (Cascade.without_member U srv) = Cascade.without_member U srv.
Proof.
  unfold Cascade.without_member. cbn. f_equal.
  induction (users srv) as [|x l IH]; cbn; [done|].
  destruct (negb _) eqn:Hx; cbn; [rewrite Hx; by f_equal | done].
Qed.

End CascadeEffects.

(** *** The invariant along a run *)
Section CascadeRuns.
Import DeleteUser CascadeInvariant.

Lemma callbackStep_resolves i c c' :
  callbackStep i Resolves c = Some c' →
  ∃ op rest, pool c !! i = Some (op :: rest)
    ∧ store c' = effect op (store c)
    ∧ pool c' = <[i := rest]> (pool c)
    ∧ pc c' = pc c.
Proof.
  unfold callbackStep. destruct (pool c !! i) as [[|op rest]|] eqn:Hi; try discriminate.
  intros [= <-]. exists op, rest. done.
Qed.

Lemma pending_after o c c' i op rest :
  pool c !! i = Some (op :: rest) →
  pool c' = <[i := rest]> (pool c) →
  pendingOp o c → o ≠ op → pendingOp o c'.
Proof.
  intros Hi Hpool [task [Hin Ho]] Hne. unfold pendingOp. rewrite Hpool.
  apply list_elem_of_lookup in Hin as [j Hj].
  destruct (decide (j = i)) as [Heq|Hji].
  - subst j. rewrite Hi in Hj. injection Hj as <-.
    apply elem_of_cons in Ho as [?|Ho]; [done|].
    exists rest. split; [|done]. apply list_elem_of_lookup. exists i.
    apply list_lookup_insert_eq. by eapply lookup_lt_Some.
  - exists task. split; [|done]. apply list_elem_of_lookup. exists j.
    by rewrite list_lookup_insert_ne.
Qed.

Lemma frame_after (P : Op → Prop) (l : list Task) i op rest :
  Forall (Forall P) l → l !! i = Some (op :: rest) →
  P op ∧ Forall (Forall P) (<[i := rest]> l).
Proof.
  intros Hall Hi.
  pose proof (Forall_lookup_1 _ _ _ _ Hall Hi) as Htask.
  apply Forall_cons in Htask as [Hop Hrest].
  split; [done|]. by apply Forall_insert.
Qed.

Variables (db0 : DB) (U : string).

Lemma underway_callback c c' i op rest :
  pool c !! i = Some (op :: rest) →
  store c' = effect op (store c) →
  pool c' = <[i := rest]> (pool c) →
  opFrame db0 U op →
  underway db0 U c → underway db0 U c'.
Proof.
  intros Hi Hstore Hpool Hframe Hund s srv Hs Hmem.
  destruct (Hund s srv Hs Hmem) as [Hcre Hoth]. rewrite Hstore. split.
  - intros Hc. destruct (Hcre Hc) as [Hsrv Hch]. split.
    + destruct Hsrv as [Hnone|Hpend].
      * left. by apply effect_servers_None.
      * destruct (decide (op = DeleteServer s U)) as [->|Hne].
        -- left. cbn. apply lookup_delete_eq.
        -- right. eapply pending_after; eauto.
    + intros cid ch Hcid Hsid. destruct (Hch cid ch Hcid Hsid) as [Hg|[Hsome Hpend]].
      * left. by apply effect_gone.
      * destruct (decide (op = DeleteServerChannels s)) as [->|Hne].
        -- left. subst s. by apply deleteServerChannels_gone.
        -- right. split.
           ++ apply effect_channels_other; [by rewrite Hsid | done].
           ++ eapply pending_after; eauto.
  - intros Hc. specialize (Hoth Hc).
    assert (∀ r, op ≠ DeleteServer s r) as Hnodel.
    { intros r ->. cbn in Hframe. destruct Hframe as [srv' [Hs' Hc']]. congruence. }
    destruct (decide (op = RemoveUser s U)) as [->|Hne].
    + left. cbn. rewrite lookup_alter_eq.
      destruct Hoth as [->|[-> _]]; cbn; [by rewrite without_member_idem | done].
    + assert (∀ r, op ≠ RemoveUser s r) as Hnorem.
      { intros r ->. cbn in Hframe. destruct Hframe as [-> _]. done. }
      rewrite (effect_servers_other _ _ _ Hnodel Hnorem).
      destruct Hoth as [Hdone|[Hsame Hpend]]; [by left|].
      right. split; [done|]. eapply pending_after; eauto.
Qed.

Lemma underway_handler c c' :
  db_servers (store c') = db_servers (store c) →
  db_channels (store c') = db_channels (store c) →
  db_messages (store c') = db_messages (store c) →
  pool c' = pool c →
  underway db0 U c → underway db0 U c'.
Proof.
  intros Hs Hc Hm Hp Hund s srv Hsrv Hmem.
  unfold gone, pendingOp in *. rewrite Hs, Hc, Hm, Hp. by apply Hund.
Qed.

Lemma getJoinedServers_spec db s srv :
  (s, srv) ∈ Cascade.getJoinedServers U db ↔
  db_servers db !! s = Some srv ∧ Cascade.isMember U srv = true.
Proof.
  unfold Cascade.getJoinedServers. rewrite list_elem_of_In, filter_In.
  rewrite <- list_elem_of_In, elem_of_map_to_list. done.
Qed.

Lemma serverCallback_frame doc :
  doc ∈ Cascade.getJoinedServers U (mkDB ∅ (db_servers db0) ∅ ∅ []) →
  Forall (opFrame db0 U) (serverCallback U doc).
Proof.
  destruct doc as [s srv]. intros [Hs _]%getJoinedServers_spec. cbn in Hs.
  unfold serverCallback. cbn.
  destruct (String.eqb U (creatorId srv)) eqn:Heq.
  - apply String.eqb_eq in Heq. repeat constructor; cbn; eauto.
  - apply String.eqb_neq in Heq. repeat constructor; cbn; eauto.
Qed.

Variables (su : SessionUser) (u0 : User).
Hypothesis session_of_U : session_id su = U.
Hypothesis U_exists : db_users db0 !! U = Some u0.

Lemma Inv_handler c c' :
  Inv db0 U c → handlerStep (Some su) Resolves c = Some c' → Inv db0 U c'.
Proof using session_of_U U_exists.
  intros HInv Hstep. unfold handlerStep in Hstep.
  destruct HInv as [(Hpc & Hst & Hpool)|[(Hpc & Hunt & Hassoc)|(Hpc & Hframe & Hund)]].
  - rewrite Hpc in Hstep. unfold Reads.getUserById in Hstep.
    rewrite Hst, session_of_U, U_exists in Hstep. injection Hstep as <-.
    right. left. cbn. rewrite Hpool. unfold untouched. cbn. rewrite Hst.
    repeat split; auto.
  - destruct Hpc as [Hpc|Hpc]; rewrite Hpc in Hstep; injection Hstep as <-.
    + right. left. cbn. split; [by right|]. split; [exact Hunt|].
      apply Forall_app. split; [done|].
      apply Forall_fmap, Forall_forall. intros doc _. by repeat constructor.
    + right. right. cbn. split; [by left|].
      destruct Hunt as (Hs & Hc & Hm).
      assert (Cascade.getJoinedServers U (store c)
              = Cascade.getJoinedServers U (mkDB ∅ (db_servers db0) ∅ ∅ [])) as Hjoined
        by (unfold Cascade.getJoinedServers; cbn; by rewrite Hs).
      split.
      * apply Forall_app. split.
        -- eapply Forall_impl; [exact Hassoc|]. intros task Htask.
           eapply Forall_impl; [exact Htask|]. by intros [].
        -- apply Forall_fmap, Forall_forall. intros doc Hdoc. cbn.
           apply serverCallback_frame. by rewrite <- Hjoined.
      * intros s srv Hsrv Hmem. unfold pendingOp, gone. cbn.
        assert (serverCallback U (s, srv)
                ∈ pool c ++ map (serverCallback U) (Cascade.getJoinedServers U (store c)))
          as Htask.
        { apply elem_of_app. right. apply list_elem_of_fmap. exists (s, srv).
          split; [done|]. rewrite Hjoined. apply getJoinedServers_spec. done. }
        unfold serverCallback in Htask. cbn in Htask.
        split; intros Hcre.
        -- assert (String.eqb U (creatorId srv) = true) as Heq
             by (by apply String.eqb_eq).
           rewrite Heq in Htask. split.
           ++ right. eexists. split; [exact Htask|]. apply list_elem_of_here.
           ++ intros cid ch Hcid Hsid. right. rewrite Hc. split; [done|].
              eexists. split; [exact Htask|].
              apply list_elem_of_further, list_elem_of_here.
        -- assert (String.eqb U (creatorId srv) = false) as Heq
             by (by apply String.eqb_neq).
           rewrite Heq in Htask.
           right. rewrite Hs. split; [done|].
           eexists. split; [exact Htask|]. apply list_elem_of_here.
  - destruct Hpc as [Hpc|[Hpc|Hpc]]; rewrite Hpc in Hstep; [| |discriminate];
      injection Hstep as <-; right; right; cbn.
    + split; [by right; left|]. split; [done|].
      eapply underway_handler; [..|exact Hund]; done.
    + split; [by right; right|]. split; [done|].
      eapply underway_handler; [..|exact Hund]; done.
Qed.

Lemma Inv_callback c c' i :
  Inv db0 U c → callbackStep i Resolves c = Some c' → Inv db0 U c'.
Proof using Type.
  intros HInv Hstep.
  apply callbackStep_resolves in Hstep as (op & rest & Hi & Hst & Hpool & Hpc).
  destruct HInv as [(_ & _ & Hnil)|[(Hpc' & Hunt & Hassoc)|(Hpc' & Hframe & Hund)]].
  - rewrite Hnil in Hi. discriminate.
  - right. left. rewrite Hpc, Hpool. split; [done|].
    destruct (frame_after _ _ _ _ _ Hassoc Hi) as [Hop Hrest].
    split; [|done]. destruct op; try done.
    unfold untouched in *. by rewrite Hst.
  - right. right. rewrite Hpc. split; [done|].
    destruct (frame_after _ _ _ _ _ Hframe Hi) as [Hop Hrest].
    split; [by rewrite Hpool|]. by eapply underway_callback.
Qed.

Lemma Inv_run schedule c c' :
  Forall resolves schedule → Inv db0 U c →
  run (Some su) schedule c = Some c' → Inv db0 U c'.
Proof using session_of_U U_exists.
  revert c. induction schedule as [|ch schedule IH]; intros c Hres HInv Hrun.
  - by injection Hrun as <-.
  - apply Forall_cons in Hres as [Hch Hres]. cbn in Hrun.
    destruct (step (Some su) ch c) as [c1|] eqn:Hstep; [|discriminate].
    apply (IH c1); [done| |done].
    destruct ch as [[|e]|i [|e]]; try done; cbn in Hstep.
    + by eapply Inv_handler.
    + by eapply Inv_callback.
Qed.

(** The cascade at rest: take a run of [deleteUser] for the user [U] in
    which every call resolves, and which has come to rest (the handler has
    returned and every callback has run to its end). For each server that
    [U] belonged to at the start: if [U] created it, the server is gone and
    so are all channels that belonged to it, with the messages they listed;
    if not, the server is still there under its name, creator and channels,
    and its member list is the old one without the entries of [U]. *)
Lemma cascade_at_rest schedule c :
  Forall resolves schedule →
  run (Some su) schedule (start db0) = Some c →
  quiescent c →
  ∀ s srv, db_servers db0 !! s = Some srv → Cascade.isMember U srv = true →
    (creatorId srv = U →
       db_servers (store c) !! s = None
       ∧ ∀ cid ch, db_channels db0 !! cid = Some ch → serverId ch = s →
           db_channels (store c) !! cid = None
           ∧ ∀ m, m ∈ messages ch → db_messages (store c) !! m = None)
    ∧ (creatorId srv ≠ U →
         ∃ srv', db_servers (store c) !! s = Some srv'
           ∧ server_name srv' = server_name srv
           ∧ creatorId srv' = creatorId srv
           ∧ channels srv' = channels srv
           ∧ users srv'
             = List.filter (λ userObj, negb (String.eqb (su_id userObj) U)) (users srv)
           ∧ U ∉ map su_id (users srv')).
Proof using session_of_U U_exists.
  intros Hres Hrun [Hret Hidle] s srv Hs Hmem.
  assert (Inv db0 U (start db0)) as H0 by (left; done).
  pose proof (Inv_run _ _ _ Hres H0 Hrun) as HInv.
  assert (∀ op, ¬ pendingOp op c) as Hnopend.
  { intros op [task [Hin Hop]].
    rewrite Forall_forall in Hidle. rewrite (Hidle _ Hin) in Hop.
    by apply not_elem_of_nil in Hop. }
  destruct HInv as [(Hpc & _)|[([Hpc|Hpc] & _)|(_ & _ & Hund)]]; try congruence.
  destruct (Hund s srv Hs Hmem) as [Hcre Hoth]. split.
  - intros Hc. destruct (Hcre Hc) as [[Hnone|Hp] Hch]; [|by apply Hnopend in Hp].
    split; [done|]. intros cid ch Hcid Hsid.
    destruct (Hch cid ch Hcid Hsid) as [Hg|[_ Hp]]; [exact Hg|by apply Hnopend in Hp].
  - intros Hc. destruct (Hoth Hc) as [Hdone|[_ Hp]]; [|by apply Hnopend in Hp].
    eexists. split; [exact Hdone|]. cbn. repeat split.
    rewrite list_elem_of_In, in_map_iff. intros (userObj & Hid & Hin).
    apply filter_In in Hin as [_ Hkept]. rewrite Hid, String.eqb_refl in Hkept.
    discriminate.
Qed.

End CascadeRuns.

(** *** Every run can be brought to rest *)
Section ComingToRest.
Import DeleteUser.
Variable session : option SessionUser.

Lemma run_app schedule more c c' c'' :
  run session schedule c = Some c' → run session more c' = Some c'' →
  run session (schedule ++ more) c = Some c''.
Proof.
  revert c. induction schedule as [|ch schedule IH]; intros c Hrun Hmore; cbn in *.
  - by injection Hrun as ->.
  - destruct (step session ch c) as [c1|]; [|discriminate]. by apply IH.
Qed.

(** While the handler has not returned, a resolving answer takes it one
    await further, or into the [catch] block. *)
Lemma handler_advances c :
  pc c ≠ Returned →
  ∃ c', handlerStep session Resolves c = Some c' ∧ awaitsLeft (pc c') < awaitsLeft (pc c).
Proof.
  intros Hpc. unfold handlerStep.
  destruct (pc c) eqn:Heq; [| | | | |done].
  - destruct session as [user|]; [|eexists; split; [done|cbn; lia]].
    destruct (Reads.getUserById (store c) (session_id user));
      eexists; (split; [done|cbn; lia]).
  - eexists; split; [done|cbn; lia].
  - eexists; split; [done|cbn; lia].
  - eexists; split; [done|cbn; lia].
  - eexists; split; [done|cbn; lia].
Qed.

Lemma handler_returns n c :
  awaitsLeft (pc c) ≤ n →
  ∃ schedule c', Forall resolves schedule
    ∧ run session schedule c = Some c' ∧ pc c' = Returned.
Proof.
  revert c. induction n as [|n IH]; intros c Hn.
  - exists [], c. split; [done|]. split; [done|].
    destruct (pc c); cbn in Hn; try lia. done.
  - assert (pc c = Returned ∨ pc c ≠ Returned) as [Hpc|Hpc]
      by (destruct (pc c); auto; by right).
    { exists [], c. done. }
    destruct (handler_advances c Hpc) as (c1 & Hstep & Hless).
    destruct (IH c1 ltac:(lia)) as (schedule & c' & Hres & Hrun & Hret).
    exists (Handler Resolves :: schedule), c'. split; [by constructor|].
    split; [|done]. cbn. by rewrite Hstep.
Qed.

Lemma callsLeft_insert (l : list (list Op)) i op rest :
  l !! i = Some (op :: rest) → callsLeft (<[i := rest]> l) < callsLeft l.
Proof.
  unfold callsLeft. revert i. induction l as [|task l IH]; intros [|i] Hi; try done.
  - injection Hi as ->. cbn. lia.
  - specialize (IH i Hi). cbn. apply Nat.add_lt_mono_l. exact IH.
Qed.

(** Once the handler has returned, the callbacks still under way can be
    given their answers one by one until none has a call left. *)
Lemma callbacks_drain n c :
  pc c = Returned → callsLeft (pool c) ≤ n →
  ∃ schedule c', Forall resolves schedule
    ∧ run session schedule c = Some c' ∧ quiescent c'.
Proof.
  revert c. induction n as [|n IH]; intros c Hpc Hn.
  - exists [], c. split; [done|]. split; [done|]. split; [done|].
    apply Forall_forall. intros task Hin.
    apply list_elem_of_lookup in Hin as [i Hi].
    destruct task as [|op rest]; [done|].
    pose proof (callsLeft_insert _ _ _ _ Hi). lia.
  - destruct (decide (Forall (λ task, task = []) (pool c))) as [Hidle|Hbusy].
    { exists [], c. split; [done|]. split; [done|]. by split. }
    apply not_Forall_Exists in Hbusy; [|intros task; apply _].
    apply Exists_exists in Hbusy as (task & Hin & Htask).
    apply list_elem_of_lookup in Hin as [i Hi].
    destruct task as [|op rest]; [by destruct Htask|].
    pose proof (callsLeft_insert _ _ _ _ Hi) as Hless.
    set (c1 := mkConfig (effect op (store c)) (pc c) (<[i := rest]> (pool c))
                 (sessionAlive c) (response c) (unhandled c) (trace c ++ [Done op])).
    assert (callsLeft (pool c1) ≤ n) as Hn1 by (subst c1; cbn [pool]; lia).
    destruct (IH c1 Hpc Hn1) as (schedule & c' & Hres & Hrun & Hq).
    exists (Callback i Resolves :: schedule), c'. split; [by constructor|].
    split; [|done]. cbn. unfold callbackStep. by rewrite Hi.
Qed.

(** From every configuration some continuation in which every call resolves
    brings the run to rest. *)
Lemma rest_reachable c :
  ∃ more c', Forall resolves more ∧ run session more c = Some c' ∧ quiescent c'.
Proof.
  destruct (handler_returns _ c (le_n _)) as (s1 & c1 & Hres1 & Hrun1 & Hret).
  destruct (callbacks_drain _ c1 Hret (le_n _)) as (s2 & c2 & Hres2 & Hrun2 & Hq).
  exists (s1 ++ s2), c2. split; [by apply Forall_app|]. split; [|done].
  by eapply run_app.
Qed.

End ComingToRest.

(** The cascade on the sample store: a run to rest in which every call
    resolves deletes [s1] with [c1], [c2] and the message of [c1], and
    leaves [s2] with Omar as its only member. *)
Lemma cascade_at_rest_sample :
  ∃ c, DeleteUser.run CascadeSample.una CascadeSample.allDone
         (DeleteUser.start CascadeSample.store) = Some c
    ∧ DeleteUser.quiescent c
    ∧ db_servers (DeleteUser.store c) !! "s1" = None
    ∧ db_channels (DeleteUser.store c) !! "c1" = None
    ∧ db_messages (DeleteUser.store c) !! "m1" = None
    ∧ db_channels (DeleteUser.store c) !! "c2" = None
    ∧ ∃ srv', db_servers (DeleteUser.store c) !! "s2" = Some srv'
        ∧ users srv' = [mkServerUser "o" 9] ∧ channels srv' = ["c3"].
Proof.
  eexists. split; [vm_compute; reflexivity|].
  match goal with |- DeleteUser.quiescent ?c ∧ _ => set (final := c) end.
  assert (DeleteUser.quiescent final) as Hq
    by (split; [reflexivity | repeat constructor]).
  split; [exact Hq|].
  assert (Forall DeleteUser.resolves CascadeSample.allDone) as Hres
    by (repeat constructor).
  assert (DeleteUser.run CascadeSample.una CascadeSample.allDone
            (DeleteUser.start CascadeSample.store) = Some final) as Hrun
    by (vm_compute; reflexivity).
  pose proof (cascade_at_rest CascadeSample.store "u" (mkSessionUser "u")
                (mkUser "una" {[ "f" ]} ∅) eq_refl) as H.
  specialize (H ltac:(vm_compute; reflexivity) _ _ Hres Hrun Hq).
  destruct (H "s1" (mkServer "mine" "u" [mkServerUser "u" 9] ["c1"; "c2"])
              ltac:(vm_compute; reflexivity) eq_refl) as [H1 _].
  destruct (H "s2" (mkServer "theirs" "o" [mkServerUser "o" 9; mkServerUser "u" 1] ["c3"])
              ltac:(vm_compute; reflexivity) eq_refl) as [_ H2].
  destruct (H1 eq_refl) as [Hs Hch].
  split; [exact Hs|].
  destruct (Hch "c1" (mkChannel "s1" "general" "" 0 ["m1"])
              ltac:(vm_compute; reflexivity) eq_refl) as [Hc1 Hm1].
  destruct (Hch "c2" (mkChannel "s1" "staff" "" 5 [])
              ltac:(vm_compute; reflexivity) eq_refl) as [Hc2 _].
  split; [exact Hc1|]. split; [apply Hm1; cbn; apply list_elem_of_here|].
  split; [exact Hc2|].
  assert ("o" ≠ "u") as Hother by discriminate.
  destruct (H2 Hother) as (srv' & Hsrv' & _ & _ & Hchs & Husers & _).
  exists srv'. split; [exact Hsrv'|]. split; [exact Husers | exact Hchs].
Defined.


(** ** Server creation *)
Section ServerCreation.
Variable validateServerCreationInput validateUniqueServer : string → option Error.
Variable newServerId newChannelId defaultDescription : string.
Variable defaultPermissionLevel : Z.
Variable channelCreate serverCreate : ServerController.CreateResult.

(** C8, as the code has it: a request that [createServer] redirects to the
    page of the new server has stored the server with one member, the
    caller at level 9, and one channel id, the id of a channel named
    "general" that belongs to the server; and it redirects whenever the
    name validates, the request has a session user and both writes succeed.
    The channel is written first and nothing takes it back: when the server
    is not written after it, because its write does not succeed or because
    the request has no session user, the channel stays in the store and no
    server is added. *)
Theorem createServer_persists req db :
  (∀ resp db' url,
     ServerController.createServer validateServerCreationInput validateUniqueServer
       newServerId newChannelId defaultDescription defaultPermissionLevel
       channelCreate serverCreate req db = (Some resp, db') →
     payload resp = Redirect url →
     ∃ user, ServerController.session req = Some user
       ∧ resp = redirected ("/server/" +:+ newServerId)
       ∧ db_servers db' !! newServerId
         = Some (mkServer (ServerController.body_name req) (session_id user)
                   [mkServerUser (session_id user) 9] [newChannelId])
       ∧ db_channels db' !! newChannelId
         = Some (mkChannel newServerId "general" defaultDescription
                   defaultPermissionLevel []))
  ∧ (∀ user,
       validateServerCreationInput (ServerController.body_name req) = None →
       validateUniqueServer (ServerController.body_name req) = None →
       channelCreate = ServerController.Creates →
       serverCreate = ServerController.Creates →
       ServerController.session req = Some user →
       (ServerController.createServer validateServerCreationInput validateUniqueServer
          newServerId newChannelId defaultDescription defaultPermissionLevel
          channelCreate serverCreate req db).1
       = Some (redirected ("/server/" +:+ newServerId)))
  ∧ (validateServerCreationInput (ServerController.body_name req) = None →
     validateUniqueServer (ServerController.body_name req) = None →
     channelCreate = ServerController.Creates →
     serverCreate ≠ ServerController.Creates ∨ ServerController.session req = None →
     db_channels
       (ServerController.createServer validateServerCreationInput validateUniqueServer
          newServerId newChannelId defaultDescription defaultPermissionLevel
          channelCreate serverCreate req db).2 !! newChannelId
     = Some (mkChannel newServerId "general" defaultDescription
               defaultPermissionLevel [])
     ∧ db_servers
         (ServerController.createServer validateServerCreationInput validateUniqueServer
            newServerId newChannelId defaultDescription defaultPermissionLevel
            channelCreate serverCreate req db).2
       = db_servers db).
Proof.
  unfold ServerController.createServer. split; [|split].
  - intros resp db' url Hrun Hpayload.
    destruct (validateServerCreationInput _); [by simplify_eq|].
    destruct (validateUniqueServer _); [by simplify_eq|].
    destruct channelCreate; [|by simplify_eq|by simplify_eq].
    destruct (ServerController.session req) as [user|]; [|by simplify_eq].
    destruct serverCreate; [|by simplify_eq|by simplify_eq].
    injection Hrun as <- <-. exists user. split; [done|]. split; [done|]. cbn.
    rewrite !lookup_insert_eq. done.
  - by intros user -> -> -> -> ->.
  - intros -> -> -> Hsrv.
    destruct (ServerController.session req) as [user|]; cbn.
    + destruct serverCreate; cbn; [|by rewrite lookup_insert_eq..].
      by destruct Hsrv.
    + by rewrite lookup_insert_eq.
Qed.

End ServerCreation.

Lemma createServer_persists_witness :
  (CreateSample.createServer ServerController.Creates).1
    = Some (redirected "/server/s0")
  ∧ db_servers (CreateSample.createServer ServerController.Creates).2 !! "s0"
    = Some (mkServer "lobby" "u" [mkServerUser "u" 9] ["c0"])
  ∧ db_channels (CreateSample.createServer ServerController.Creates).2 !! "c0"
    = Some (mkChannel "s0" "general" "" 0 []).
Proof.
  split; [reflexivity|].
  destruct (proj1 (createServer_persists CreateSample.accepts CreateSample.accepts
                     "s0" "c0" "" 0 ServerController.Creates ServerController.Creates
                     CreateSample.request CreateSample.empty)
              (redirected "/server/s0")
              (CreateSample.createServer ServerController.Creates).2 "/server/s0"
              eq_refl eq_refl) as [user [Hu [_ [Hs Hc]]]].
  injection Hu as <-. split; [exact Hs | exact Hc].
Defined.

(** C8, as the claim words it, fails: when the server write resolves to
    nothing, the handler answers 500 and the "general" channel it wrote just
    before stays in the store, naming a server that does not exist. *)
Lemma createServer_orphan_counterexample :
  (CreateSample.createServer ServerController.ResolvesFalsy).1
    = Some (mkResponse 500 (JsonError "Unable to create server."))
  ∧ db_channels (CreateSample.createServer ServerController.ResolvesFalsy).2 !! "c0"
    = Some (mkChannel "s0" "general" "" 0 [])
  ∧ db_servers (CreateSample.createServer ServerController.ResolvesFalsy).2 !! "s0" = None.
Proof.
  split; [reflexivity|]. split; vm_compute; reflexivity.
Qed.

Lemma denied_caller_response_witness :
  ChannelController.loadChannelPage Samples.acceptId (Samples.storeWithAuthor "owner") "c1"
    = inr (Samples.plainChannel, Samples.plainServer,
           [mkMessageView "m1" "owner" "owner" "hello"])
  ∧ denied None Samples.plainServer Samples.plainChannel
  ∧ ChannelController.renderChannelMainPage Samples.acceptId None "c1"
      (Samples.storeWithAuthor "owner") = ChannelController.forbidden.
Proof.
  assert (ChannelController.loadChannelPage Samples.acceptId
            (Samples.storeWithAuthor "owner") "c1"
          = inr (Samples.plainChannel, Samples.plainServer,
                 [mkMessageView "m1" "owner" "owner" "hello"])) as Hload
    by (vm_compute; reflexivity).
  assert (denied None Samples.plainServer Samples.plainChannel) as Hden by exact I.
  split; [exact Hload|]. split; [exact Hden|].
  exact (proj1 (denied_caller_response Samples.acceptId None "c1"
                  (Samples.storeWithAuthor "owner")) _ _ _ Hload Hden).
Defined.

(** C10, as the claim words it, fails: for an anonymous caller, two stores
    that differ only in the author of the channel's message get different
    responses, the 403 page when the author's account exists and the 404 page
    of the failed lookup when it is gone. *)
Lemma denied_caller_response_counterexample :
  db_users (Samples.storeWithAuthor "owner") = db_users (Samples.storeWithAuthor "ghost")
  ∧ db_servers (Samples.storeWithAuthor "owner") = db_servers (Samples.storeWithAuthor "ghost")
  ∧ db_channels (Samples.storeWithAuthor "owner") = db_channels (Samples.storeWithAuthor "ghost")
  ∧ session_identity None = None
  ∧ ChannelController.renderChannelMainPage Samples.acceptId None "c1"
      (Samples.storeWithAuthor "owner") = ChannelController.forbidden
  ∧ status (ChannelController.renderChannelMainPage Samples.acceptId None "c1"
              (Samples.storeWithAuthor "ghost")) = 404%Z
  ∧ ChannelController.renderChannelMainPage Samples.acceptId None "c1"
      (Samples.storeWithAuthor "ghost") ≠ ChannelController.forbidden.
Proof.
  split; [reflexivity|]. split; [reflexivity|]. split; [reflexivity|].
  split; [reflexivity|]. split; [vm_compute; reflexivity|].
  split; [vm_compute; reflexivity|]. vm_compute. discriminate.
Qed.

(** * Further properties of the handlers *)

(** ** The channel page *)
Section ChannelPage.
Import ChannelController.

(** X1. Access is monotone: a caller who is let into a channel is still let
    in when the level of their membership entry is raised or the level the
    channel asks for is lowered. *)
Theorem access_monotone session server server' channel channel' msgs msgs' U e e' :
  session_identity session = Some U →
  findUser U (users server) = Some e →
  findUser U (users server') = Some e' →
  (su_permissionLevel e ≤ su_permissionLevel e')%Z →
  (permissionLevel channel' ≤ permissionLevel channel)%Z →
  granted (permissionGate session server channel msgs) = true →
  granted (permissionGate session server' channel' msgs') = true.
Proof.
  intros Hs He He' Hlevel Hchannel. rewrite !permissionGate_cases, Hs, He, He'.
  destruct (Z.leb_spec (permissionLevel channel) (su_permissionLevel e)); [|done].
  intros _. destruct (Z.leb_spec (permissionLevel channel') (su_permissionLevel e'));
    [done | lia].
Qed.

Lemma access_monotone_witness :
  granted (permissionGate (Some (mkSessionUser "m"))
             (mkServer "s" "o" [mkServerUser "m" 4] []) (mkChannel "s1" "c" "" 4 []) [])
  = true
  ∧ granted (permissionGate (Some (mkSessionUser "m"))
               (mkServer "s" "o" [mkServerUser "m" 7] []) (mkChannel "s1" "c" "" 2 []) [])
    = true.
Proof.
  assert (granted (permissionGate (Some (mkSessionUser "m"))
                     (mkServer "s" "o" [mkServerUser "m" 4] [])
                     (mkChannel "s1" "c" "" 4 []) []) = true) as H by reflexivity.
  split; [exact H|].
  apply (access_monotone (Some (mkSessionUser "m"))
           (mkServer "s" "o" [mkServerUser "m" 4] [])
           (mkServer "s" "o" [mkServerUser "m" 7] [])
           (mkChannel "s1" "c" "" 4 []) (mkChannel "s1" "c" "" 2 []) [] [] "m"
           (mkServerUser "m" 4) (mkServerUser "m" 7));
    [reflexivity | reflexivity | reflexivity | simpl; lia | simpl; lia | exact H].
Defined.

Lemma mapE_loadMessage db ids msgs :
  mapE (loadMessage db) ids = inr msgs →
  map mv_id msgs = ids
  ∧ Forall (λ v, ∃ msg author,
              db_messages db !! mv_id v = Some msg
              ∧ db_users db !! userId msg = Some author
              ∧ v = mkMessageView (mv_id v) (userId msg) (username author) (message msg))
      msgs.
Proof.
  revert msgs. induction ids as [|id ids IH]; intros msgs H; cbn in H.
  - injection H as <-. split; [done | constructor].
  - unfold loadMessage at 1, Reads.getMessageById, Reads.getUserById in H.
    destruct (db_messages db !! id) as [msg|] eqn:Hmsg; [|discriminate]. cbn in H.
    destruct (db_users db !! userId msg) as [author|] eqn:Hauthor; [|discriminate].
    cbn in H. destruct (mapE (loadMessage db) ids) as [|rest] eqn:Hrest; [discriminate|].
    cbn in H. injection H as <-. destruct (IH rest eq_refl) as [Hids Hall].
    split; [cbn; by rewrite Hids|]. constructor; [|done]. cbn. eauto.
Qed.

Variable validateMongooseId : string → string → Error + string.

(** X2. A rendered channel page shows what the store holds: the name,
    description and server of the channel stored under the validated id, and
    one message per id of the channel's list, in the order of the list, each
    with the stored text and the current username of its author. *)
Theorem rendered_page_is_the_channel session channelIdParam db code sid name desc msgs send :
  renderChannelMainPage validateMongooseId session channelIdParam db
    = mkResponse code (RenderChannelMain sid name desc msgs send) →
  ∃ channelId channel,
    validateMongooseId channelIdParam "channelId" = inr channelId
    ∧ db_channels db !! channelId = Some channel
    ∧ is_Some (db_servers db !! serverId channel)
    ∧ code = 200%Z ∧ send = true
    ∧ sid = serverId channel ∧ name = channel_name channel ∧ desc = description channel
    ∧ map mv_id msgs = messages channel
    ∧ Forall (λ v, ∃ msg author,
                db_messages db !! mv_id v = Some msg
                ∧ db_users db !! userId msg = Some author
                ∧ v = mkMessageView (mv_id v) (userId msg) (username author) (message msg))
        msgs.
Proof.
  unfold renderChannelMainPage, loadChannelPage, Reads.getChannelById, Reads.getServerById.
  destruct (validateMongooseId channelIdParam "channelId") as [e|channelId] eqn:Hv; cbn.
  { destruct e; discriminate. }
  destruct (db_channels db !! channelId) as [channel|] eqn:Hc; cbn; [|discriminate].
  destruct (db_servers db !! serverId channel) as [server|] eqn:Hs; cbn; [|discriminate].
  destruct (mapE (loadMessage db) (messages channel)) as [e|loaded] eqn:Hm; cbn.
  { destruct e; discriminate. }
  rewrite permissionGate_cases.
  destruct (session_identity session) as [U|]; [|discriminate].
  destruct (findUser U (users server)) as [entry|]; [|discriminate].
  destruct (_ <=? _)%Z; [|discriminate].
  intros [= <- <- <- <- <- <-]. exists channelId, channel.
  destruct (mapE_loadMessage _ _ _ Hm) as [Hids Hall]. by repeat split.
Qed.

End ChannelPage.

Lemma rendered_page_is_the_channel_witness :
  map mv_id (pageMessages
               (ChannelController.renderChannelMainPage Samples.acceptId
                  (Some (mkSessionUser "owner")) "c1" (Samples.storeWithAuthor "owner")))
  = messages Samples.plainChannel.
Proof.
  destruct (rendered_page_is_the_channel Samples.acceptId (Some (mkSessionUser "owner"))
              "c1" (Samples.storeWithAuthor "owner") 200 "s1" "general" ""
              [mkMessageView "m1" "owner" "owner" "hello"] true)
    as (channelId & channel & Hv & Hc & _ & _ & _ & _ & _ & _ & Hids & _).
  - vm_compute. reflexivity.
  - injection Hv as <-. vm_compute in Hc. injection Hc as <-. exact Hids.
Defined.

(** ** Server creation, continued *)
Section AfterCreation.
Variable validateServerCreationInput validateUniqueServer : string → option Error.
Variable newServerId newChannelId defaultDescription : string.
Variable defaultPermissionLevel : Z.
Variable channelCreate serverCreate : ServerController.CreateResult.

(** X4. [createServer] writes at most one channel, under the new channel id,
    and one server, under the new server id: users, messages, conversations
    and every other channel and server stay as they were. A request it
    answers with 400, and one whose channel write does not succeed, leaves
    the whole store as it was. *)
Theorem createServer_frame req db :
  let out := ServerController.createServer validateServerCreationInput validateUniqueServer
               newServerId newChannelId defaultDescription defaultPermissionLevel
               channelCreate serverCreate req db in
  db_users out.2 = db_users db
  ∧ db_messages out.2 = db_messages db
  ∧ db_privateMessages out.2 = db_privateMessages db
  ∧ (∀ cid, cid ≠ newChannelId → db_channels out.2 !! cid = db_channels db !! cid)
  ∧ (∀ sid, sid ≠ newServerId → db_servers out.2 !! sid = db_servers db !! sid)
  ∧ (∀ resp, out.1 = Some resp → status resp = 400%Z → out.2 = db)
  ∧ (channelCreate ≠ ServerController.Creates → out.2 = db).
Proof.
  unfold ServerController.createServer.
  destruct (validateServerCreationInput _); [by repeat split|].
  destruct (validateUniqueServer _); [by repeat split|].
  destruct channelCreate; [|by repeat split|by repeat split].
  destruct (ServerController.session req) as [user|];
    [destruct serverCreate|]; cbn;
    (split; [done|]; split; [done|]; split; [done|]; split;
       [intros cid Hcid; by rewrite lookup_insert_ne|]; split;
       [intros sid Hsid; by rewrite ?lookup_insert_ne|]; split;
       [by intros resp [= <-] | done]).
Qed.

End AfterCreation.

Lemma createServer_frame_witness :
  (CreateSample.createServer ServerController.ResolvesFalsy).1
    = Some (mkResponse 500 (JsonError "Unable to create server."))
  ∧ db_servers (CreateSample.createServer ServerController.ResolvesFalsy).2 !! "s9"
    = db_servers CreateSample.empty !! "s9".
Proof.
  split; [reflexivity|].
  destruct (createServer_frame CreateSample.accepts CreateSample.accepts "s0" "c0" "" 0
              ServerController.Creates ServerController.ResolvesFalsy
              CreateSample.request CreateSample.empty) as (_ & _ & _ & _ & Hservers & _).
  apply Hservers. discriminate.
Defined.

(** ** Requests without a session, and requests that do not validate *)
Section ErrorPrecedence.
Variable validateCreateFriendRequestInfo : string → Error + string.
Variable validateMongooseId : string → string → Error + string.
Variable policy : PrivateMessageService.DuplicatePolicy.

(** X5. The four friend handlers read [req.session.user.id] inside their
    [try] block and after validating the body. A request whose body
    validates but which has no session user is answered with the masked 500
    "Code went boom.", not with a 401, and the store is left as it was; a
    request whose body does not validate is answered with the validator's
    error, with or without a session, and the store is left as it was. *)
Theorem friend_handlers_reject_early req db :
  (UserController.session req = None →
     (∀ name, validateCreateFriendRequestInfo (UserController.body_username req) = inr name →
        UserController.sendFriendRequest validateCreateFriendRequestInfo policy req db
        = (boom, db))
     ∧ (∀ id, validateMongooseId (UserController.body_requesterId req) "requesterId" = inr id →
          UserController.rejectFriendRequest validateMongooseId req db = (boom, db)
          ∧ UserController.addFriend validateMongooseId policy req db = (boom, db))
     ∧ (∀ id, validateMongooseId (UserController.body_friendId req) "friendId" = inr id →
          UserController.removeFriend validateMongooseId req db = (boom, db)))
  ∧ (∀ e, validateCreateFriendRequestInfo (UserController.body_username req) = inl e →
       UserController.sendFriendRequest validateCreateFriendRequestInfo policy req db
       = (jsonCatch e, db))
  ∧ (∀ e, validateMongooseId (UserController.body_requesterId req) "requesterId" = inl e →
       UserController.rejectFriendRequest validateMongooseId req db = (jsonCatch e, db)
       ∧ UserController.addFriend validateMongooseId policy req db = (jsonCatch e, db))
  ∧ (∀ e, validateMongooseId (UserController.body_friendId req) "friendId" = inl e →
       UserController.removeFriend validateMongooseId req db = (jsonCatch e, db)).
Proof.
  unfold UserController.sendFriendRequest, UserController.rejectFriendRequest,
    UserController.addFriend, UserController.removeFriend, tryCatch, bindM, liftE,
    UserController.sessionUserId, throw.
  split; [intros ->; split; [|split]|split; [|split]].
  - by intros name ->.
  - by intros id ->.
  - by intros id ->.
  - by intros e ->.
  - by intros e ->.
  - by intros e ->.
Qed.

End ErrorPrecedence.

Lemma friend_handlers_reject_early_witness :
  UserController.removeFriend Samples.acceptId
    (UserController.mkRequest None "" "" "a") Samples.twoFriends
  = (boom, Samples.twoFriends).
Proof.
  destruct (friend_handlers_reject_early Samples.acceptName Samples.acceptId
              PrivateMessageService.DuplicateIsNoOp
              (UserController.mkRequest None "" "" "a") Samples.twoFriends)
    as [H _].
  destruct (H eq_refl) as (_ & _ & Hremove).
  exact (Hremove "a" eq_refl).
Defined.

(** ** Deleting a channel *)
Section DeleteChannel.
Variable validateMongooseId : string → string → Error + string.
Variable removeChannel : string * Server → string * Channel → UserDoc → M unit.

(** X6. [deleteChannel] calls [ChannelService.deleteChannel] only after
    [ServerService.removeChannel] has returned: whatever the deleting
    service would do, the handler's answer and store are the same when there
    is no session user (the masked 500, store untouched), when the session
    user, the channel or its server is not stored (the lookup's error, store
    untouched), and when [removeChannel] throws (its error, and the store as
    [removeChannel] left it). *)
Theorem deleteChannel_guarded (deleteChannelService : string → M unit)
    session bodyChannelId db channelId :
  validateMongooseId bodyChannelId "channelId" = inr channelId →
  (session = None →
     ChannelAdmin.deleteChannel validateMongooseId removeChannel deleteChannelService
       session bodyChannelId db = (boom, db))
  ∧ (∀ user, session = Some user →
       db_users db !! session_id user = None ∨ db_channels db !! channelId = None
       ∨ (∃ channel, db_channels db !! channelId = Some channel
                     ∧ db_servers db !! serverId channel = None) →
       ∃ what,
         ChannelAdmin.deleteChannel validateMongooseId removeChannel deleteChannelService
           session bodyChannelId db = (jsonCatch (NotFoundError what), db))
  ∧ (∀ user u channel server e db',
       session = Some user →
       db_users db !! session_id user = Some u →
       db_channels db !! channelId = Some channel →
       db_servers db !! serverId channel = Some server →
       removeChannel (serverId channel, server) (channelId, channel) (session_id user, u) db
         = (inl e, db') →
       ChannelAdmin.deleteChannel validateMongooseId removeChannel deleteChannelService
         session bodyChannelId db = (jsonCatch e, db')).
Proof.
  intros Hvalid.
  unfold ChannelAdmin.deleteChannel, tryCatch, bindM, liftE, throw, ret, readM,
    UserService.getUserById, Reads.getUserById, Reads.getChannelById, Reads.getServerById,
    bindE.
  rewrite Hvalid. split; [|split].
  - by intros ->.
  - intros user -> Hmissing. cbn.
    destruct (db_users db !! session_id user) as [u|]; [|by exists "User"].
    destruct (db_channels db !! channelId) as [channel|]; [|by exists "Channel"].
    destruct (db_servers db !! serverId channel) as [server|] eqn:Hs; [|by exists "Server"].
    destruct Hmissing as [?|[?|(channel' & [= <-] & Hnone)]]; try discriminate.
    congruence.
  - intros user u channel server e db' -> Hu Hc Hs Hremove. cbn.
    rewrite Hu, Hc. cbn. rewrite Hs, Hremove. done.
Qed.

End DeleteChannel.

Lemma deleteChannel_guarded_witness :
  ChannelAdmin.deleteChannel Samples.acceptId
    (λ _ _ _, throw (BaseError "PermissionError" 403 "Insufficient permissions."))
    (λ id, modifyM (λ db, mkDB (db_users db) (db_servers db) (delete id (db_channels db))
                            (db_messages db) (db_privateMessages db)))
    (Some (mkSessionUser "owner")) "c1" (Samples.storeWithAuthor "owner")
  = (mkResponse 403 (JsonError "Insufficient permissions."), Samples.storeWithAuthor "owner").
Proof.
  refine (proj2 (proj2 (deleteChannel_guarded Samples.acceptId _ _
                          (Some (mkSessionUser "owner")) "c1"
                          (Samples.storeWithAuthor "owner") "c1" eq_refl))
            (mkSessionUser "owner") (mkUser "owner" ∅ ∅) Samples.plainChannel
            Samples.plainServer _ _ eq_refl _ _ _ eq_refl);
    vm_compute; reflexivity.
Defined.

(** ** Account deletion, continued *)
Section DeleteUserRuns.
Import DeleteUser.

Lemma answered_step session ch c c' :
  Forall (Forall callbackOp) (pool c) → handlerProgress c → answered c →
  step session ch c = Some c' → answered c'.
Proof.
  intros Hpool Hprog Hans Hstep. unfold handlerProgress, answered in *.
  destruct ch as [o|i o]; cbn in Hstep.
  - unfold handlerStep in Hstep.
    destruct (pc c) eqn:Hpc; try discriminate; destruct Hans as [Halive Hnone];
      repeat match type of Hstep with
             | match ?x with _ => _ end = _ => destruct x
             end;
      injection Hstep as <-; cbn; rewrite ?List.filter_app, ?Hprog; cbn;
      rewrite ?app_nil_r; try done;
      try (right; split; [done|]; split; [eauto|]; eauto; fail).
    + right. split; [done|]. split; [by exists (ForeignError "")|]. by left.
    + left. eauto.
  - unfold callbackStep in Hstep.
    destruct (pool c !! i) as [[|op rest]|] eqn:Hi; try discriminate.
    pose proof (Forall_lookup_1 _ _ _ _ Hpool Hi) as Htask.
    apply Forall_cons in Htask as [Hop Hrest].
    destruct o as [|e]; injection Hstep as <-; cbn; rewrite List.filter_app;
      destruct op; try done; cbn; by rewrite app_nil_r.
Qed.

Lemma answered_run session schedule c0 c :
  Forall (Forall callbackOp) (pool c0) ∧ handlerProgress c0 ∧ answered c0 →
  run session schedule c0 = Some c →
  answered c.
Proof.
  revert c0. induction schedule as [|ch schedule IH]; intros c0 H0 Hrun; cbn in Hrun.
  - assert (c = c0) as -> by congruence. tauto.
  - destruct (step session ch c0) as [c1|] eqn:Hstep; [|discriminate].
    destruct H0 as (Hpool & Hprog & Hans).
    apply (IH c1); [|done].
    destruct (progress_step _ _ _ _ Hpool Hprog Hstep). split; [done|]. split; [done|].
    exact (answered_step _ _ _ _ Hpool Hprog Hans Hstep).
Qed.

(** X8. In every run of [deleteUser], whatever the interleaving and whichever
    calls reject: the handler has answered exactly when it has returned; the
    session is destroyed only in a run answered with 204, after the handler's
    calls to delete the conversations and the user record have both
    resolved; and a run answered from the [catch] block keeps the session
    and has not had the call that deletes the user record resolve. *)
Theorem deleteUser_answer_and_session session schedule db c :
  run session schedule (start db) = Some c →
  (is_Some (response c) ↔ pc c = Returned)
  ∧ (sessionAlive c = false →
       response c = Some (mkResponse 204 JsonEmpty)
       ∧ ∃ r, List.filter handlerEvent (trace c)
              = [Done (DeleteUserPrivateMessages r); Done (DeleteUserRecord r);
                 SessionDestroyed])
  ∧ (pc c = Returned → sessionAlive c = true →
       (∃ e, response c = Some (jsonCatch e))
       ∧ ∀ r, Done (DeleteUserRecord r) ∉ List.filter handlerEvent (trace c)).
Proof.
  intros Hrun.
  assert (answered c) as Hans.
  { eapply answered_run; [|exact Hrun]. repeat split; constructor. }
  unfold answered in Hans. destruct (pc c) eqn:Hpc;
    try (destruct Hans as [Halive Hnone]; rewrite Halive, Hnone;
         split; [split; [by intros [? ?] | discriminate]|]; split; discriminate).
  destruct Hans as [(Halive & Hresp & r & Hdone)|(Halive & [e Hresp] & Hdone)];
    rewrite Halive, Hresp.
  - split; [split; eauto|]. split; [eauto | discriminate].
  - split; [split; eauto|]. split; [discriminate|]. intros _ _. split; [eauto|].
    intros r Hin. destruct Hdone as [Hdone|[r' Hdone]]; rewrite Hdone in Hin.
    + by apply not_elem_of_nil in Hin.
    + apply list_elem_of_singleton in Hin. discriminate.
Qed.

(** X9. A request to [deleteUser] without a session user takes one step: the
    property access throws inside [try], the caller is sent the masked 500,
    and nothing is read, written or started. *)
Theorem deleteUser_without_session schedule db c :
  run None schedule (start db) = Some c →
  store c = db ∧ pool c = [] ∧ sessionAlive c = true
  ∧ (schedule = [] ∧ c = start db
     ∨ (∃ o, schedule = [Handler o]) ∧ response c = Some boom ∧ pc c = Returned).
Proof.
  destruct schedule as [|ch schedule]; cbn.
  - intros [= <-]. repeat split. by left.
  - destruct ch as [o|i o]; cbn; [|by destruct o].
    destruct schedule as [|ch' schedule]; cbn.
    + intros [= <-]. repeat split. right. eauto.
    + destruct ch' as [o'|i' o']; cbn; [discriminate | by destruct o'].
Qed.

End DeleteUserRuns.

Lemma deleteUser_awaited_steps_in_order_witness :
  ∃ c r, DeleteUser.run CascadeSample.una CascadeSample.handlerFirst
           (DeleteUser.start CascadeSample.store) = Some c
    ∧ List.filter DeleteUser.handlerEvent (DeleteUser.trace c)
      `prefix_of` [DeleteUser.Done (DeleteUser.DeleteUserPrivateMessages r);
                   DeleteUser.Done (DeleteUser.DeleteUserRecord r);
                   DeleteUser.SessionDestroyed].
Proof.
  destruct (DeleteUser.run CascadeSample.una CascadeSample.handlerFirst
              (DeleteUser.start CascadeSample.store)) as [c|] eqn:Hrun;
    [|vm_compute in Hrun; discriminate].
  destruct (deleteUser_awaited_steps_in_order _ _ _ _ Hrun) as [r Hr].
  exists c, r. split; [reflexivity | exact Hr].
Defined.

Lemma deleteUser_answer_and_session_witness :
  ∃ c, DeleteUser.run CascadeSample.una (CascadeSample.callbackFails (ForeignError "x"))
         (DeleteUser.start CascadeSample.store) = Some c
    ∧ (is_Some (DeleteUser.response c) ↔ DeleteUser.pc c = DeleteUser.Returned).
Proof.
  destruct (DeleteUser.run CascadeSample.una (CascadeSample.callbackFails (ForeignError "x"))
              (DeleteUser.start CascadeSample.store)) as [c|] eqn:Hrun;
    [|vm_compute in Hrun; discriminate].
  exists c. split; [reflexivity|].
  exact (proj1 (deleteUser_answer_and_session _ _ _ _ Hrun)).
Defined.

Lemma deleteUser_without_session_witness :
  ∃ c, DeleteUser.run None [DeleteUser.Handler DeleteUser.Resolves]
         (DeleteUser.start CascadeSample.store) = Some c
    ∧ DeleteUser.store c = CascadeSample.store.
Proof.
  destruct (DeleteUser.run None [DeleteUser.Handler DeleteUser.Resolves]
              (DeleteUser.start CascadeSample.store)) as [c|] eqn:Hrun;
    [|vm_compute in Hrun; discriminate].
  exists c. split; [reflexivity|].
  exact (proj1 (deleteUser_without_session _ _ _ Hrun)).
Defined.

(** ** The profile page, login and signup *)
Section ProfilePages.
Import UserPages.
Variable bio theme : User → string.
Variable servers : User → list string.
Variable validateMongooseId : string → string → Error + string.

Lemma isOwner_identity session userIdParam :
  isOwner session userIdParam = true ↔ session_identity session = Some userIdParam.
Proof.
  unfold isOwner, session_identity. destruct session as [user|]; [|done].
  destruct (truthy (session_id user)); cbn; [|done].
  rewrite String.eqb_eq. split; congruence.
Qed.

(** X10. The page with a user's theme, servers, friends and pending requests
    is sent only to the session whose id is the requested id. Every other
    caller, signed in or not, is sent the public page, which holds the
    username and the bio of the user stored under the validated id and
    nothing else, whatever that user's servers, friends and requests are. *)
Theorem own_profile_only_for_owner session userIdParam db :
  (∀ code name b t ss fs rs,
     renderUserProfilePage bio theme servers validateMongooseId session userIdParam db
       = mkReply code (RenderOwnProfile name b t ss fs rs) →
     session_identity session = Some userIdParam)
  ∧ (session_identity session ≠ Some userIdParam →
     ∀ userId u, validateMongooseId userIdParam "userId" = inr userId →
       db_users db !! userId = Some u →
       renderUserProfilePage bio theme servers validateMongooseId session userIdParam db
       = mkReply 200 (RenderPublicProfile (username u) (bio u))).
Proof.
  unfold renderUserProfilePage. split.
  - intros code name b t ss fs rs. destruct (isOwner session userIdParam) eqn:Hown.
    { intros _. by apply isOwner_identity. }
    unfold Reads.getUserById.
    destruct (validateMongooseId _ _) as [[]|userId]; cbn; try discriminate.
    destruct (db_users db !! userId); cbn; discriminate.
  - intros Hnot userId u Hvalid Hu.
    destruct (isOwner session userIdParam) eqn:Hown.
    { by apply isOwner_identity in Hown. }
    unfold Reads.getUserById. rewrite Hvalid. cbn. by rewrite Hu.
Qed.

Lemma mapE_all {A B} (f : A → Error + B) (l : list A) :
  (∀ x, x ∈ l → ∃ y, f x = inr y) → ∃ ys, mapE f l = inr ys.
Proof.
  induction l as [|x l IH]; intros Hall; cbn; [eauto|].
  destruct (Hall x) as [y ->]; [apply list_elem_of_here|]. cbn.
  destruct IH as [ys ->]; [|cbn; eauto].
  intros x' Hx'. apply Hall. by apply list_elem_of_further.
Qed.

Lemma mapE_some_fails {A B} (f : A → Error + B) (l : list A) (e : Error) :
  (∀ x, x ∈ l → f x = inl e ∨ ∃ y, f x = inr y) →
  (∃ x, x ∈ l ∧ f x = inl e) →
  mapE f l = inl e.
Proof.
  induction l as [|x l IH]; intros Hall [x0 [Hin Hfail]].
  - by apply not_elem_of_nil in Hin.
  - cbn. destruct (Hall x) as [->|[y Hy]]; [apply list_elem_of_here|done|].
    rewrite Hy. cbn. rewrite IH; [done| |].
    + intros x' Hx'. apply Hall. by apply list_elem_of_further.
    + apply elem_of_cons in Hin as [->|Hin]; [congruence|eauto].
Qed.

(** X11. The owner's page needs every friend to resolve: when all servers of
    the user are stored but one of the ids in the user's [friends] set has no
    user record, the owner is sent the 404 page of the failed lookup instead
    of their profile. *)
Theorem own_profile_needs_every_friend session userIdParam db userId u :
  session_identity session = Some userIdParam →
  validateMongooseId userIdParam "userId" = inr userId →
  db_users db !! userId = Some u →
  (∀ serverId, serverId ∈ servers u → is_Some (db_servers db !! serverId)) →
  (∃ id, id ∈ friends u ∧ db_users db !! id = None) →
  renderUserProfilePage bio theme servers validateMongooseId session userIdParam db
  = plain (ChannelController.renderCatch (NotFoundError "User")).
Proof.
  intros Hown Hvalid Hu Hservers [id [Hid Hnone]].
  apply isOwner_identity in Hown. unfold renderUserProfilePage. rewrite Hown, Hvalid.
  cbn. unfold Reads.getUserById at 1. rewrite Hu. cbn.
  destruct (mapE_all (λ serverId,
              server ← Reads.getServerById db serverId ;;; inr (serverId, server_name server))
              (servers u)) as [ss ->].
  { intros serverId Hin. destruct (Hservers serverId Hin) as [server Hs].
    unfold Reads.getServerById. rewrite Hs. cbn. eauto. }
  cbn. rewrite (mapE_some_fails _ _ (NotFoundError "User")); [done| |].
  - intros x _. unfold Reads.getUserById. destruct (db_users db !! x); cbn; eauto.
  - exists id. split; [by apply elem_of_elements|].
    unfold Reads.getUserById. by rewrite Hnone.
Qed.

Variable validateLoginCredentials : string → string → Error + (string * string).
Variable authenticateCredentials : string → string → M UserDoc.
Variable validateSignupInfo : string → string → string → Error + (string * string * string).
Variable createUserService : string → string → string → M UserDoc.

(** X12. [loginUser] and [createUser] write the session only when they answer
    with the url of a profile; the url is that of the user the session then
    stands for, and a request for it from that session is never answered with
    the public page: it gets the owner's page or the page of an error. A
    failed login or signup leaves the session as it was. *)
Theorem login_leads_to_own_profile name password email session db :
  leadsHome bio theme servers validateMongooseId session
    (loginUser bio theme validateLoginCredentials authenticateCredentials
       name password session db)
  ∧ leadsHome bio theme servers validateMongooseId session
      (createUser bio theme validateSignupInfo createUserService
         email name password session db).
Proof.
  assert (∀ code user db',
    leadsHome bio theme servers validateMongooseId session
      (welcome bio theme code user, db')) as Hwelcome.
  { intros code user db'. unfold leadsHome. cbn. eexists. split; [done|]. split; [done|].
    cbn. intros Htruthy db'' name' b. unfold renderUserProfilePage, isOwner. cbn.
    rewrite Htruthy, String.eqb_refl. cbn. unfold Reads.getUserById.
    destruct (validateMongooseId _ _) as [[]|userId]; cbn; try discriminate.
    destruct (db_users db'' !! userId) as [u|]; cbn; [|discriminate].
    repeat (match goal with |- context [mapE ?f ?l] => destruct (mapE f l) as [[]|] end;
            cbn; try discriminate). }
  split.
  - unfold loginUser. destruct (validateLoginCredentials _ _) as [e|[n p]].
    { by destruct e. }
    destruct (authenticateCredentials n p db) as [[e|user] db'].
    { by destruct e. }
    apply Hwelcome.
  - unfold createUser. destruct (validateSignupInfo _ _ _) as [e|[[m n] p]].
    { by destruct e. }
    destruct (createUserService m n p db) as [[e|user] db'].
    { by destruct e. }
    apply Hwelcome.
Qed.

End ProfilePages.

Lemma own_profile_only_for_owner_witness :
  UserPages.renderUserProfilePage (λ _, "") (λ _, "light") (λ _, []) Samples.acceptId
    (Some (mkSessionUser "b")) "a" Samples.twoFriends
  = mkReply 200 (RenderPublicProfile "alice" "").
Proof.
  refine (proj2 (own_profile_only_for_owner (λ _, "") (λ _, "light") (λ _, [])
                   Samples.acceptId (Some (mkSessionUser "b")) "a" Samples.twoFriends)
            _ "a" (mkUser "alice" {[ "b" ]} ∅) eq_refl _).
  - vm_compute. discriminate.
  - vm_compute. reflexivity.
Defined.

Lemma own_profile_needs_every_friend_witness :
  ∃ c, DeleteUser.run CascadeSample.una (CascadeSample.callbackFails (ForeignError "x"))
         (DeleteUser.start CascadeSample.store) = Some c
    ∧ UserPages.renderUserProfilePage (λ _, "") (λ _, "light") (λ _, []) Samples.acceptId
        (Some (mkSessionUser "f")) "f" (DeleteUser.store c)
      = plain (ChannelController.renderCatch (NotFoundError "User")).
Proof.
  destruct (DeleteUser.run CascadeSample.una (CascadeSample.callbackFails (ForeignError "x"))
              (DeleteUser.start CascadeSample.store)) as [c|] eqn:Hrun;
    [|vm_compute in Hrun; discriminate].
  exists c. split; [reflexivity|].
  vm_compute in Hrun. injection Hrun as <-.
  apply (own_profile_needs_every_friend (λ _, "") (λ _, "light") (λ _, []) Samples.acceptId
           (Some (mkSessionUser "f")) "f" _ "f" (mkUser "fay" {[ "u" ]} ∅)).
  - reflexivity.
  - reflexivity.
  - vm_compute. reflexivity.
  - intros serverId Hin. by apply not_elem_of_nil in Hin.
  - exists "u". split; [compute_done | vm_compute; reflexivity].
Defined.

Lemma login_leads_to_own_profile_witness :
  leadsHome (λ _, "") (λ _, "light") (λ _, []) Samples.acceptId None
    (UserPages.loginUser (λ _, "") (λ _, "light") (λ n p, inr (n, p))
       (λ n _, UserService.getUserByUsername n) "alice" "secret" None Samples.twoFriends).
Proof.
  exact (proj1 (login_leads_to_own_profile (λ _, "") (λ _, "light") (λ _, [])
                  Samples.acceptId (λ n p, inr (n, p))
                  (λ n _, UserService.getUserByUsername n)
                  (λ e n p, inr (e, n, p)) (λ _ n _, UserService.getUserByUsername n)
                  "alice" "secret" "" None Samples.twoFriends)).
Defined.

(** ** [authUser] *)
Section Auth.
Import AuthController.
Variable validateLoginInput : string → string → option Error.
Variable comparePassword : string → string → Error + bool.
Variable hashedPassword : User → string.
Variable darkMode : User → bool.
Variable findOneRejects : bool.

Lemma findOne_None name db :
  findOne name db = None ↔ ∀ id u, db_users db !! id = Some u → username u ≠ name.
Proof.
  unfold findOne. split.
  - intros Hnone id u Hu Hname.
    assert (In (id, u) (map_to_list (db_users db))) as Hin
      by (by apply list_elem_of_In, elem_of_map_to_list).
    pose proof (find_none _ _ Hnone (id, u) Hin) as H. cbn in H.
    apply String.eqb_neq in H. done.
  - intros Hall. destruct (List.find _ _) as [[id u]|] eqn:Hf; [|done].
    apply find_some in Hf as [Hin Heq]. cbn in Heq.
    apply list_elem_of_In, elem_of_map_to_list in Hin.
    apply String.eqb_eq in Heq. by destruct (Hall id u Hin).
Qed.

Lemma findOne_Some name db doc :
  findOne name db = Some doc → db_users db !! doc.1 = Some doc.2 ∧ username doc.2 = name.
Proof.
  unfold findOne. intros Hf. apply find_some in Hf as [Hin Heq].
  destruct doc as [id u]. apply list_elem_of_In, elem_of_map_to_list in Hin.
  by apply String.eqb_eq in Heq.
Qed.

(** X13. [authUser] writes the session only when it redirects to a profile,
    and then the session stands for a stored user of that name whose password
    hash matched. For well-formed input it answers 400 "User does not
    exist." exactly when no stored user has the name: a wrong password for
    a name that exists is answered differently, with 401. *)
Theorem authUser_outcomes name password session db :
  let out := authUser validateLoginInput comparePassword hashedPassword darkMode
               findOneRejects name password session db in
  (out.2 = session
   ∨ ∃ id u, db_users db !! id = Some u ∧ username u = name
       ∧ comparePassword password (hashedPassword u) = inr true
       ∧ out = (Some (plain (redirected ("/user/" +:+ id))),
                Some (mkAuthSession id name (darkMode u))))
  ∧ (validateLoginInput name password = None → findOneRejects = false →
     ((∀ id u, db_users db !! id = Some u → username u ≠ name) ↔
      out.1 = Some (mkReply 400 (RenderAuth "auth/login" "User does not exist.")))
     ∧ (∀ id u, db_users db !! id = Some u → username u = name →
          ∃ doc, findOne name db = Some doc
            ∧ (comparePassword password (hashedPassword doc.2) = inr false →
               out.1 = Some (mkReply 401
                               (RenderAuth "auth/login" "Invalid username or password."))))).
Proof.
  unfold authUser. split.
  - destruct (validateLoginInput name password); [by left|].
    destruct findOneRejects; [by left|].
    destruct (findOne name db) as [[id u]|] eqn:Hf; [|by left].
    destruct (findOne_Some _ _ _ Hf) as [Hu Hname]. cbn in *.
    destruct (comparePassword password (hashedPassword u)) as [|[]] eqn:Hc;
      [by left| |by left].
    right. exists id, u. by rewrite Hname.
  - intros -> ->. split.
    + rewrite <- findOne_None. destruct (findOne name db) as [[id u]|]; cbn; [|done].
      split; [discriminate|]. destruct (comparePassword _ _) as [|[]]; discriminate.
    + intros id u Hu Hname. destruct (findOne name db) as [doc|] eqn:Hf.
      * exists doc. split; [done|]. by intros ->.
      * exfalso. by eapply findOne_None.
Qed.

End Auth.

(** ** [renderServerPage] *)
Section ServerPage.
Variable server_description : Server → string.
Variable findByIdRejects : string → option Error.


End ServerPage.

(** ** The profile editor of the browser *)
Section Editor.
Import EditPage.

Lemma setDefaults_cases stored :
  stored = Some "dark" ∧ setDefaults stored = "dark"
  ∨ stored ≠ Some "dark" ∧ setDefaults stored = "light".
Proof.
  unfold setDefaults. destruct stored as [t|]; cbn; [|by right].
  destruct (String.eqb_spec t "light") as [->|Hl]; cbn; [by right|].
  destruct (String.eqb_spec t "dark") as [->|Hd]; cbn; [by left|].
  right. split; [congruence | done].
Qed.

(** X15. The theme selector is always set to "light" or "dark": to "dark"
    exactly when that is what the browser stored, and to "light" for a
    missing or any other stored value. Setting it is idempotent. *)
Theorem setDefaults_range stored :
  (setDefaults stored = "light" ∨ setDefaults stored = "dark")
  ∧ (setDefaults stored = "dark" ↔ stored = Some "dark")
  ∧ setDefaults (Some (setDefaults stored)) = setDefaults stored.
Proof.
  destruct (setDefaults_cases stored) as [[-> ->]|[Hnot ->]].
  - split; [by right|]. done.
  - split; [by left|]. split; [split; [discriminate | done] | done].
Qed.


(** X17. A theme saved by a successful [updateUser] comes back at the next
    page load exactly when it is "light" or "dark": the editor stores the
    theme of the form as it is, and [setDefaults] shows "light" for any
    other value. *)
Theorem saved_theme_round_trip requestBody status json stored :
  ok status = true →
  let saved := (updateUser (inr requestBody) (FetchResponse status json) None stored).2 in
  saved = Some (form_theme requestBody)
  ∧ (setDefaults saved = form_theme requestBody ↔
     form_theme requestBody = "light" ∨ form_theme requestBody = "dark")
  ∧ (form_theme requestBody ≠ "dark" → setDefaults saved = "light").
Proof.
  intros Hok. unfold updateUser. rewrite Hok. cbn. split; [done|].
  destruct (setDefaults_cases (Some (form_theme requestBody))) as [[Hd ->]|[Hnot ->]].
  - injection Hd as Hd. split; [split; [by right | done] | done].
  - split; [|done]. split; [by left|]. intros [Hl|Hd]; [done | congruence].
Qed.

End Editor.

Lemma saved_theme_round_trip_witness :
  EditPage.setDefaults
    (EditPage.updateUser (inr (EditPage.mkFormBody "una" "dark"))
       (EditPage.FetchResponse 204 (EditPage.JsonRejects "")) None None).2
  = "dark".
Proof.
  destruct (saved_theme_round_trip (EditPage.mkFormBody "una" "dark") 204
              (EditPage.JsonRejects "") None eq_refl) as (_ & Hround & _).
  apply Hround. by right.
Defined.

Lemma authUser_outcomes_witness :
  (∀ id u, db_users Samples.twoFriends !! id = Some u → username u ≠ "carol") ↔
  (AuthController.authUser (λ _ _, None) (λ p h, inr (String.eqb p h)) (λ _, "hash")
     (λ _, false) false "carol" "secret" None Samples.twoFriends).1
  = Some (mkReply 400 (RenderAuth "auth/login" "User does not exist.")).
Proof.
  exact (proj1 (proj2 (authUser_outcomes (λ _ _, None) (λ p h, inr (String.eqb p h))
                         (λ _, "hash") (λ _, false) false "carol" "secret" None
                         Samples.twoFriends) eq_refl eq_refl)).
Defined.

